(** * Agent observability kit: the trace pages and the trace store

    The repository ships the presentation layer of the toolkit: the
    trace list page (dashboard) and the trace detail viewer, two browser
    scripts that read the Query Service over HTTP.  This development
    embeds both scripts and states what they render.  The capture and
    storage engine that the pages talk to is described by the
    specification only; the last modules model it from that text. *)

From stdpp Require Import base option list strings pretty gmap sorting.
From Stdlib Require Import QArith Qabs Qminmax Lia.

Set Warnings "-register-all".
#[local] Open Scope Z_scope.

(** ** JavaScript values and the operations the scripts apply to them *)

Module Js.

(** What [response.json()] yields, plus [undefined], which property reads
    produce.  Numbers are IEEE doubles in the browser; they are
    idealised here as exact rationals. *)
Inductive value :=
  | VUndef
  | VNull
  | VBool (b : bool)
  | VNum (q : Q)
  | VStr (s : string)
  | VArr (items : list value)
  | VObj (fields : list (string * value)).

(** A thrown or rejected error; the scripts only read [message]. *)
Record exn := Exn { message : string }.

Inductive outcome (A : Type) :=
  | Ok (a : A)
  | Throw (e : exn).
Arguments Ok {A} a.
Arguments Throw {A} e.

#[export] Instance outcome_ret : MRet outcome := fun A a => Ok a.
#[export] Instance outcome_bind : MBind outcome := fun A B k m =>
  match m with Ok a => k a | Throw e => Throw e end.

Definition TypeError (what : string) : exn := Exn ("TypeError: " +:+ what).

Definition num_of_nat (n : nat) : value := VNum (inject_Z (Z.of_nat n)).

(** First binding of [k] in an object's own properties. *)
Fixpoint lookup_field (k : string) (fields : list (string * value)) : value :=
  match fields with
  | [] => VUndef
  | (k', v) :: rest => if String.eqb k k' then v else lookup_field k rest
  end.

(** [v.k]: reading a property of [undefined] or [null] throws; primitives
    have no own data properties except [length] on strings and arrays. *)
Definition get (v : value) (k : string) : outcome value :=
  match v with
  | VUndef | VNull => Throw (TypeError ("Cannot read properties of nullish value, reading " +:+ k))
  | VObj fields => Ok (lookup_field k fields)
  | VArr items => Ok (if String.eqb k "length" then num_of_nat (length items) else VUndef)
  | VStr s => Ok (if String.eqb k "length" then num_of_nat (String.length s) else VUndef)
  | VBool _ | VNum _ => Ok VUndef
  end.

(** [v[i]] for a non-negative integer index; a string is taken as a
    sequence of one-unit characters. *)
Definition get_index (v : value) (i : nat) : outcome value :=
  match v with
  | VUndef | VNull => Throw (TypeError "Cannot read properties of nullish value, reading index")
  | VArr items => Ok (default VUndef (items !! i))
  | VStr s => Ok (match String.get i s with Some c => VStr (String c EmptyString) | None => VUndef end)
  | VObj fields => Ok (lookup_field (pretty i) fields)
  | VBool _ | VNum _ => Ok VUndef
  end.

(** ToBoolean. *)
Definition truthy (v : value) : bool :=
  match v with
  | VUndef | VNull => false
  | VBool b => b
  | VNum q => negb (Qeq_bool q 0)
  | VStr s => negb (String.eqb s EmptyString)
  | VArr _ | VObj _ => true
  end.

(** [a || b] on values. *)
Definition or_else (a b : value) : value := if truthy a then a else b.

(** [a === b] where [b] is a primitive written in the script or passed
    as a string argument: an array or object is never identical to it. *)
Definition strict_eq (a b : value) : bool :=
  match a, b with
  | VUndef, VUndef | VNull, VNull => true
  | VBool x, VBool y => eqb x y
  | VNum x, VNum y => Qeq_bool x y
  | VStr x, VStr y => String.eqb x y
  | _, _ => false
  end.

(** Receiver of an [Array.prototype] method: JSON data carries no
    functions, so the call succeeds on arrays only. *)
Definition as_array (method : string) (v : value) : outcome (list value) :=
  match v with
  | VArr items => Ok items
  | VUndef | VNull => Throw (TypeError ("Cannot read properties of nullish value, reading " +:+ method))
  | _ => Throw (TypeError (method +:+ " is not a function"))
  end.

(** [items.some(f)]: stops at the first element [f] accepts. *)
Fixpoint array_some (f : value -> outcome bool) (items : list value) : outcome bool :=
  match items with
  | [] => Ok false
  | x :: rest => b ← f x; if b : bool then Ok true else array_some f rest
  end.

(** [items.find(f)]. *)
Fixpoint array_find (f : value -> outcome bool) (items : list value) : outcome (option value) :=
  match items with
  | [] => Ok None
  | x :: rest => b ← f x; if b : bool then Ok (Some x) else array_find f rest
  end.

(** [items.map(f)], also [forEach] when the results are dropped. *)
Fixpoint array_map {B} (f : value -> outcome B) (items : list value) : outcome (list B) :=
  match items with
  | [] => Ok []
  | x :: rest => y ← f x; ys ← array_map f rest; Ok (y :: ys)
  end.

(** [items.filter(f)]. *)
Fixpoint array_filter (f : value -> outcome bool) (items : list value) : outcome (list value) :=
  match items with
  | [] => Ok []
  | x :: rest => b ← f x; ys ← array_filter f rest; Ok (if b : bool then x :: ys else ys)
  end.

(** [v.toFixed(d)]: only numbers have the method. *)
Definition toFixed (v : value) : outcome Q :=
  match v with
  | VNum q => Ok q
  | VUndef | VNull => Throw (TypeError "Cannot read properties of nullish value, reading toFixed")
  | _ => Throw (TypeError "toFixed is not a function")
  end.

(** Whether the object has an own property [k]. *)
Definition has_key (k : string) (fields : list (string * value)) : bool :=
  existsb (fun kv => String.eqb k kv.1) fields.

(** Whether ToPrimitive completes on [v].  Parsed JSON holds no
    function.  On an object the conversion calls [toString] and
    [valueOf]: an own [toString] member hides
    [Object.prototype.toString] behind a value that cannot be called,
    and [valueOf], own or inherited, gives no primitive, so the
    conversion throws; without that member the inherited [toString]
    answers.  An array answers through [join], which converts every
    element in turn. *)
Fixpoint printable (v : value) : bool :=
  match v with
  | VObj fields => negb (has_key "toString" fields)
  | VArr items => forallb printable items
  | _ => true
  end.

(** ToPrimitive of [v], with either hint; ToString and ToNumber of [v]
    throw exactly when it does.  A template literal applies ToString to
    each [${...}], and so does an assignment to [textContent] (which
    lets null and undefined through); [new Date(v)], [v > 0] and
    [sum + v] apply ToPrimitive.  The text or number the conversion
    yields is not computed here: a completed conversion hands the value
    on. *)
Definition ToPrimitive (v : value) : outcome value :=
  if printable v then Ok v
  else Throw (TypeError "Cannot convert object to primitive value").

(** The parts of the host the scripts rely on and ECMAScript leaves to
    the implementation or that need the number grammar: [Date.parse] on
    a string, ToString of an array or object that has one, and
    StringToNumber ([None] is NaN). *)
Record host := Host {
  Date_parse : string -> option Z;
  ToString : value -> string;
  StringToNumber : string -> option Q
}.

(** [v > 0]: the operand goes through ToPrimitive, then ToNumber. *)
Definition gt_zero (h : host) (v : value) : outcome bool :=
  let positive (q : Q) := 0 <? Qnum q in
  p ← ToPrimitive v;
  Ok match p with
     | VUndef | VNull => false
     | VBool b => b
     | VNum q => positive q
     | VStr s => from_option positive false (StringToNumber h s)
     | VArr _ | VObj _ => from_option positive false (StringToNumber h (ToString h p))
     end.

(** TimeClip after ToNumber: reject what lies outside +-8.64e15 ms,
    truncate the rest toward zero. *)
Definition TimeClip (q : Q) : option Z :=
  if Qle_bool (Qabs q) (8640000000000000 # 1)
  then Some (Z.quot (Qnum q) (Z.pos (Qden q)))
  else None.

(** Time value of [new Date(v)] in milliseconds; [None] is the invalid
    date (NaN).  The constructor takes ToPrimitive of its argument
    first. *)
Definition Date_value (h : host) (v : value) : outcome (option Z) :=
  p ← ToPrimitive v;
  Ok match p with
     | VUndef => None
     | VNull => Some 0
     | VBool b => Some (if b then 1 else 0)
     | VNum q => TimeClip q
     | VStr s => Date_parse h s
     | VArr _ | VObj _ => Date_parse h (ToString h p)
     end.

(** The difference of two dates; [None] is NaN. *)
Definition Date_minus (x y : option Z) : option Z :=
  match x, y with
  | Some a, Some b => Some (a - b)
  | _, _ => None
  end.

(** [Array.prototype.sort(cmp)], as a stable insertion sort.  A NaN from
    the comparator counts as +0.  For a consistent comparator every
    conforming engine returns this same list (the sort is stable since
    ES2019).  When the comparator throws the array is left unchanged. *)
Fixpoint sort_insert (cmp : value -> value -> outcome (option Z))
    (x : value) (sorted : list value) : outcome (list value) :=
  match sorted with
  | [] => Ok [x]
  | y :: rest =>
      c ← cmp x y;
      if default 0 c <=? 0 then Ok (x :: y :: rest)
      else (r ← sort_insert cmp x rest; Ok (y :: r))
  end.

Fixpoint array_sort (cmp : value -> value -> outcome (option Z))
    (items : list value) : outcome (list value) :=
  match items with
  | [] => Ok []
  | x :: rest => s ← array_sort cmp rest; sort_insert cmp x s
  end.

(** [obj.k = v]: replaces the first binding of [k], or adds one. *)
Fixpoint set_field (k : string) (v : value) (fields : list (string * value))
    : list (string * value) :=
  match fields with
  | [] => [(k, v)]
  | (k', v') :: rest =>
      if String.eqb k k' then (k, v) :: rest else (k', v') :: set_field k v rest
  end.

(** Script state threaded through the statements of a function: the
    state survives a throw, as the page does. *)
Definition cmd (S A : Type) : Type := S -> outcome A * S.

Definition ret {S A} (a : A) : cmd S A := fun s => (Ok a, s).

Definition bind {S A B} (m : cmd S A) (k : A -> cmd S B) : cmd S B := fun s =>
  match m s with
  | (Ok a, s') => k a s'
  | (Throw e, s') => (Throw e, s')
  end.

(** A pure expression evaluated inside a function body. *)
Definition eval {S A} (o : outcome A) : cmd S A := fun s => (o, s).

(** [try { body } catch (error) { handler }]. *)
Definition try_catch {S} (body : cmd S unit) (handler : exn -> cmd S unit) : cmd S unit :=
  fun s =>
    match body s with
    | (Ok a, s') => (Ok a, s')
    | (Throw e, s') => handler e s'
    end.

(** What the two awaits of a load function deliver: [fetch] rejects,
    [response.json()] rejects, or the body parses. *)
Inductive response :=
  | FetchRejects (e : exn)
  | JsonRejects (e : exn)
  | Body (v : value).

Definition fetch_json (r : response) : outcome value :=
  match r with
  | FetchRejects e | JsonRejects e => Throw e
  | Body v => Ok v
  end.

End Js.

Declare Scope cmd_scope.
Delimit Scope cmd_scope with cmd.
Notation "x <- m ;; k" := (Js.bind m (fun x => k))
  (at level 100, m at next level, right associativity) : cmd_scope.
Notation "m ;; k" := (Js.bind m (fun _ => k))
  (at level 100, right associativity) : cmd_scope.

(** ** What the scripts write into the page

    The markup a template literal produces is kept as a tree: one
    constructor per template, one field per interpolated expression,
    holding the JavaScript value whose conversion to text completed. *)

Module Dom.
Import Js.

Inductive icon := RedCircle | GreenCircle.

(** One [span-node] of the execution graph ([renderSpanNode]). *)
Record span_node := SpanNode {
  sn_class : string;            (* statusClass *)
  sn_indent : string;           (* indent *)
  sn_onclick : value;           (* showSpanDetail('span_id') *)
  sn_icon : icon;
  sn_name : value;
  sn_type : value;
  sn_duration : Q;              (* (span.duration_ms || 0).toFixed(0) *)
  sn_llm_badge : option value   (* llm_calls.length, when it is > 0 *)
}.

(** One [span-node] of the span list ([renderSpanList]). *)
Record span_row := SpanRow {
  sr_class : string;
  sr_onclick : value;
  sr_name : value;
  sr_type : value;
  sr_duration : Q;
  sr_start : value              (* new Date(span.start_time).toLocaleTimeString() *)
}.

(** The [metadata-grid] of the trace header. *)
Record metadata_grid := MetadataGridOf {
  mg_status_class : string;
  mg_status_label : string;
  mg_total_duration : Q;        (* toFixed(0) *)
  mg_span_count : value;
  mg_start_time : value;        (* new Date(firstSpan.start_time).toLocaleString() *)
  mg_agent : option value;
  mg_framework : option value
}.

(** One LLM call inside the span detail modal. *)
Record llm_call_view := LlmCallView {
  lc_number : nat;              (* idx + 1 *)
  lc_model : value;
  lc_latency : Q;               (* toFixed(0) *)
  lc_tokens : value;            (* JSON.stringify *)
  lc_cost : option Q;           (* toFixed(4), when cost is truthy *)
  lc_prompt : value;
  lc_response : value
}.

Record span_detail := SpanDetailOf {
  sd_name : value;
  sd_span_id : value;
  sd_type : value;
  sd_status : value;
  sd_duration : Q;              (* toFixed(2) *)
  sd_inputs : value;
  sd_outputs : value;
  sd_llm_calls : option (value * list llm_call_view);
  sd_error : option (value * value);   (* error_type, error *)
  sd_metadata : value
}.

(** One [trace-item] of the dashboard. *)
Record trace_item := TraceItem {
  ti_trace_id : value;
  ti_name : value;              (* trace.name || 'Unnamed trace' *)
  ti_status : value;
  ti_span_count : value;        (* trace.span_count || 0 *)
  ti_duration : Q;              (* toFixed(0) *)
  ti_start : value;
  ti_agent : option value;
  ti_framework : option value
}.

(** The content of an element after an assignment to [innerHTML] or
    [textContent]. *)
Inductive content :=
  | Text (v : value)
  | ErrorMessage (prefix : string) (detail : value)  (* div.error-message *)
  | NoTracesYet                                      (* div.loading *)
  | MetadataGrid (g : metadata_grid)
  | SpanNodes (nodes : list span_node)
  | SpanRows (rows : list span_row)
  | SpanDetail (d : span_detail)
  | TraceItems (items : list trace_item)
  | TotalTraces (n : nat)
  | SuccessRate (successful total : nat)             (* (s / t * 100).toFixed(1) % *)
  | AvgDuration (summands : list value) (total : nat)
  | TotalSpans (summands : list value).

End Dom.

(** ** The trace detail viewer ([server/static/trace-viewer.js]) *)

Module TraceViewer.
Import Js Dom.
#[local] Open Scope cmd_scope.

(** The page the script runs in: the module variable [currentTrace], the
    elements the script addresses by id (the page template declares each
    of them), and whether [span-modal] carries the class [active]. *)
Record page := Page {
  currentTrace : value;
  elements : gmap string content;
  modal_active : bool
}.

Definition read_currentTrace : cmd page value := fun p => (Ok (currentTrace p), p).

Definition write_currentTrace (v : value) : cmd page unit := fun p =>
  (Ok (), Page v (elements p) (modal_active p)).

(** [document.getElementById(id).innerHTML = c], likewise [textContent]. *)
Definition set_content (id : string) (c : content) : cmd page unit := fun p =>
  (Ok (), Page (currentTrace p) (<[id := c]> (elements p)) (modal_active p)).

(** [modal.classList.add('active')]. *)
Definition activate_modal : cmd page unit := fun p =>
  (Ok (), Page (currentTrace p) (elements p) true).

(** [modal.classList.remove('active')], the body of the two close
    handlers (the close button, and a click on the backdrop). *)
Definition close_modal : cmd page unit := fun p =>
  (Ok (), Page (currentTrace p) (elements p) false).

(** [s => s.status === 'error'] *)
Definition is_error_span (s : value) : outcome bool :=
  st ← get s "status"; Ok (strict_eq st (VStr "error")).

(** [v ? `...${v}...` : ''] *)
Definition optional (v : value) : outcome (option value) :=
  if truthy v then (text ← ToPrimitive v; Ok (Some text)) else Ok None.

(** [renderTraceMetadata].  [lastSpan] is computed and never used;
    computing it takes [currentTrace.spans.length - 1], which converts
    the length to a number, and the read at that index cannot throw once
    the read of [firstSpan] did not. *)
Definition renderTraceMetadata : cmd page unit :=
  trace <- read_currentTrace;;
  name <- eval (get trace "name");;
  title <- eval (ToPrimitive (or_else name (VStr "Trace")));;
  set_content "trace-title" (Text title);;
  trace_id <- eval (get trace "trace_id");;
  id_text <- eval (ToPrimitive trace_id);;
  set_content "trace-id" (Text id_text);;
  md <- eval (get trace "metadata");;
  let metadata := or_else md (VObj []) in
  spans <- eval (get trace "spans");;
  first <- eval (get_index spans 0);;
  let firstSpan := or_else first (VObj []) in
  len <- eval (get spans "length");;
  eval (ToPrimitive len);;
  grid <- eval (
    items ← as_array "some" spans;
    errored ← array_some is_error_span items;
    errored' ← array_some is_error_span items;
    total ← get metadata "total_duration_ms";
    duration ← toFixed (or_else total (VNum 0));
    count ← get metadata "span_count";
    count_text ← ToPrimitive (or_else count (VNum 0));
    start ← get firstSpan "start_time";
    start_date ← ToPrimitive start;
    agent ← get metadata "agent_id";
    agent_item ← optional agent;
    framework ← get metadata "framework";
    framework_item ← optional framework;
    Ok {| mg_status_class := if errored : bool then "error" else "success";
          mg_status_label := if errored' : bool then "Error" else "Success";
          mg_total_duration := duration;
          mg_span_count := count_text;
          mg_start_time := start_date;
          mg_agent := agent_item;
          mg_framework := framework_item |});;
  set_content "trace-metadata" (MetadataGrid grid).

(** [renderSpanNode(span)]; every call leaves [depth] at its default 0. *)
Definition renderSpanNode (h : host) (span : value) : outcome span_node :=
  let depth := 0%nat in
  let indent := if (0 <? depth)%nat then "span-indent" else EmptyString in
  status ← get span "status";
  let statusClass := if strict_eq status (VStr "error") then "error" else "success" in
  let icon := if strict_eq status (VStr "error") then RedCircle else GreenCircle in
  span_id ← get span "span_id";
  id_text ← ToPrimitive span_id;
  name ← get span "name";
  name_text ← ToPrimitive name;
  span_type ← get span "span_type";
  type_text ← ToPrimitive span_type;
  d ← get span "duration_ms";
  duration ← toFixed (or_else d (VNum 0));
  calls ← get span "llm_calls";
  len ← get calls "length";
  shown ← gt_zero h len;
  Ok {| sn_class := statusClass; sn_indent := indent; sn_onclick := id_text;
        sn_icon := icon; sn_name := name_text; sn_type := type_text;
        sn_duration := duration;
        sn_llm_badge := if shown : bool then Some len else None |}.

(** [(a, b) => new Date(a.start_time) - new Date(b.start_time)] *)
Definition by_start_time (h : host) (a b : value) : outcome (option Z) :=
  sa ← get a "start_time";
  da ← Date_value h sa;
  sb ← get b "start_time";
  db ← Date_value h sb;
  Ok (Date_minus da db).

(** [currentTrace.spans.sort(...)]: sorts the array in place, so the
    module variable sees the new order, and returns it. *)
Definition sort_spans (h : host) : cmd page (list value) :=
  trace <- read_currentTrace;;
  spans <- eval (get trace "spans");;
  items <- eval (as_array "sort" spans);;
  sorted <- eval (array_sort (by_start_time h) items);;
  match trace with
  | VObj fields => write_currentTrace (VObj (set_field "spans" (VArr sorted) fields))
  | _ => ret ()
  end;;
  ret sorted.

(** [renderExecutionGraph].  [spanMap] and [rootSpans] are built and
    never read; building them still reads every span. *)
Definition renderExecutionGraph (h : host) : cmd page unit :=
  trace <- read_currentTrace;;
  spans <- eval (get trace "spans");;
  items <- eval (as_array "forEach" spans);;
  eval (array_map (fun span => get span "span_id") items);;
  eval (array_filter (fun s => p ← get s "parent_span_id"; Ok (negb (truthy p))) items);;
  sorted <- sort_spans h;;
  nodes <- eval (array_map (renderSpanNode h) sorted);;
  set_content "execution-graph" (SpanNodes nodes).

(** The callback of [renderSpanList]. *)
Definition renderSpanRow (span : value) : outcome span_row :=
  status ← get span "status";
  let statusClass := if strict_eq status (VStr "error") then "error" else "success" in
  span_id ← get span "span_id";
  id_text ← ToPrimitive span_id;
  name ← get span "name";
  name_text ← ToPrimitive name;
  span_type ← get span "span_type";
  type_text ← ToPrimitive span_type;
  d ← get span "duration_ms";
  duration ← toFixed (or_else d (VNum 0));
  start ← get span "start_time";
  start_date ← ToPrimitive start;
  Ok {| sr_class := statusClass; sr_onclick := id_text; sr_name := name_text;
        sr_type := type_text; sr_duration := duration; sr_start := start_date |}.

Definition renderSpanList (h : host) : cmd page unit :=
  sorted <- sort_spans h;;
  rows <- eval (array_map renderSpanRow sorted);;
  set_content "span-list" (SpanRows rows).

(** [loadTrace]; the response stands for what
    [fetch(`/api/trace/${TRACE_ID}`)] and [response.json()] deliver. *)
Definition loadTrace (h : host) (r : response) : cmd page unit :=
  try_catch
    (trace <- eval (fetch_json r);;
     write_currentTrace trace;;
     err <- eval (get trace "error");;
     if truthy err then
       err_text <- eval (ToPrimitive err);;
       set_content "trace-metadata" (ErrorMessage EmptyString err_text)
     else
       renderTraceMetadata;;
       renderExecutionGraph h;;
       renderSpanList h)
    (fun error =>
       set_content "trace-metadata"
         (ErrorMessage "Error loading trace: " (VStr (message error)))).

(** The callback of [span.llm_calls.map] in [showSpanDetail]. *)
Definition renderLlmCall (idx : nat) (call : value) : outcome llm_call_view :=
  model ← get call "model";
  model_text ← ToPrimitive model;
  latency_ms ← get call "latency_ms";
  latency ← toFixed latency_ms;
  tokens ← get call "tokens";
  cost ← get call "cost";
  cost' ← (if truthy cost then c ← toFixed cost; Ok (Some c) else Ok None);
  prompt ← get call "prompt";
  prompt_text ← ToPrimitive prompt;
  response ← get call "response";
  response_text ← ToPrimitive response;
  Ok {| lc_number := idx + 1; lc_model := model_text; lc_latency := latency;
        lc_tokens := tokens; lc_cost := cost'; lc_prompt := prompt_text;
        lc_response := response_text |}.

Fixpoint renderLlmCalls (idx : nat) (calls : list value) : outcome (list llm_call_view) :=
  match calls with
  | [] => Ok []
  | call :: rest =>
      v ← renderLlmCall idx call;
      vs ← renderLlmCalls (S idx) rest;
      Ok (v :: vs)
  end.

(** [showSpanDetail(spanId)]; the graph and the list call it with a
    quoted string. *)
Definition showSpanDetail (h : host) (spanId : string) : cmd page unit :=
  trace <- read_currentTrace;;
  spans <- eval (get trace "spans");;
  items <- eval (as_array "find" spans);;
  found <- eval (array_find
                   (fun s => id ← get s "span_id"; Ok (strict_eq id (VStr spanId)))
                   items);;
  let span := default VUndef found in
  if negb (truthy span) then ret ()
  else
    detail <- eval (
      calls ← get span "llm_calls";
      len ← get calls "length";
      shown ← gt_zero h len;
      llm ← (if shown : bool
             then (cs ← as_array "map" calls;
                   views ← renderLlmCalls 0 cs;
                   Ok (Some (len, views)))
             else Ok None);
      name ← get span "name";
      name_text ← ToPrimitive name;
      span_id ← get span "span_id";
      id_text ← ToPrimitive span_id;
      span_type ← get span "span_type";
      type_text ← ToPrimitive span_type;
      status ← get span "status";
      status_text ← ToPrimitive status;
      d ← get span "duration_ms";
      duration ← toFixed (or_else d (VNum 0));
      inputs ← get span "inputs";
      outputs ← get span "outputs";
      error ← get span "error";
      error_section ← (if truthy error
                       then (error_type ← get span "error_type";
                             error_type_text ← ToPrimitive error_type;
                             error_text ← ToPrimitive error;
                             Ok (Some (error_type_text, error_text)))
                       else Ok None);
      metadata ← get span "metadata";
      Ok {| sd_name := name_text; sd_span_id := id_text; sd_type := type_text;
            sd_status := status_text; sd_duration := duration;
            sd_inputs := inputs; sd_outputs := outputs; sd_llm_calls := llm;
            sd_error := error_section;
            sd_metadata := metadata |});;
    set_content "span-detail-content" (SpanDetail detail);;
    activate_modal.

End TraceViewer.

(** ** The trace list page (dashboard script) *)

Module TraceList.
Import Js Dom.
#[local] Open Scope cmd_scope.

(** The dashboard keeps no script state: the page is its elements. *)
Definition set_content (id : string) (c : content)
    : cmd (gmap string content) unit :=
  fun doc => (Ok (), <[id := c]> doc).

(** The callback of [traces.map] that renders one [trace-item]. *)
Definition renderTraceItem (trace : value) : outcome trace_item :=
  trace_id ← get trace "trace_id";
  id_text ← ToPrimitive trace_id;
  name ← get trace "name";
  name_text ← ToPrimitive (or_else name (VStr "Unnamed trace"));
  status ← get trace "status";
  status_text ← ToPrimitive status;
  count ← get trace "span_count";
  count_text ← ToPrimitive (or_else count (VNum 0));
  total ← get trace "total_duration_ms";
  duration ← toFixed (or_else total (VNum 0));
  start ← get trace "start_time";
  start_date ← ToPrimitive start;
  agent ← get trace "agent_id";
  agent_item ← (if truthy agent then (a ← ToPrimitive agent; Ok (Some a)) else Ok None);
  framework ← get trace "framework";
  framework_item ← (if truthy framework
                    then (f ← ToPrimitive framework; Ok (Some f)) else Ok None);
  Ok {| ti_trace_id := id_text;
        ti_name := name_text;
        ti_status := status_text;
        ti_span_count := count_text;
        ti_duration := duration;
        ti_start := start_date;
        ti_agent := agent_item;
        ti_framework := framework_item |}.

(** [loadTraces]; the response stands for what [fetch('/api/traces')]
    and [response.json()] deliver.  Each [sum + x] of the two [reduce]
    calls takes ToPrimitive of [x]. *)
Definition loadTraces (r : response) : cmd (gmap string content) unit :=
  try_catch
    (traces <- eval (fetch_json r);;
     len <- eval (get traces "length");;
     if strict_eq len (VNum 0) then set_content "trace-list" NoTracesYet
     else
       stats <- eval (
         items ← as_array "filter" traces;
         successfulTraces ← array_filter
           (fun t => st ← get t "status"; Ok (strict_eq st (VStr "success"))) items;
         durations ← array_map
           (fun t => d ← get t "total_duration_ms"; ToPrimitive (or_else d (VNum 0))) items;
         counts ← array_map
           (fun t => c ← get t "span_count"; ToPrimitive (or_else c (VNum 0))) items;
         Ok (items, length successfulTraces, durations, counts));;
       let '(items, successful, durations, counts) := stats in
       let totalTraces := length items in
       set_content "total-traces" (TotalTraces totalTraces);;
       set_content "success-rate" (SuccessRate successful totalTraces);;
       set_content "avg-duration" (AvgDuration durations totalTraces);;
       set_content "total-spans" (TotalSpans counts);;
       rendered <- eval (array_map renderTraceItem items);;
       set_content "trace-list" (TraceItems rendered))
    (fun error =>
       set_content "trace-list"
         (ErrorMessage "Error loading traces: " (VStr (message error)))).

End TraceList.

(** ** The capture and storage engine

    The engine (data model, tracer, storage backend, query service) is
    not among the repository's sources; every definition of this module
    follows the specification's text. *)

Module Engine.
Import Js.

(** Modelled from the spec: the span status, one of running, success,
    error (data model of the absent engine). *)
Inductive span_status := Running | Success | Error.

#[export] Instance span_status_eq_dec : EqDecision span_status.
Proof. solve_decision. Defined.

(** Modelled from the spec: the LLM-call record (model, prompt, response,
    token counts, latency, optional cost) of the absent engine. *)
Record llm_call := LlmCall {
  model : string;
  prompt : string;
  response : string;
  tokens_input : Z;
  tokens_output : Z;
  latency_ms : Q;
  cost : option Q
}.

Module Span.
(** Modelled from the spec: the Span of the absent engine's data model.
    Timestamps are wall-clock readings in milliseconds; [end_time] and
    [duration_ms] are absent while the span is running; the payloads are
    schema-less structured values. *)
Record t := Make {
  span_id : string;
  parent_span_id : option string;
  trace_id : string;
  name : string;
  span_type : string;
  start_time : Q;
  end_time : option Q;
  duration_ms : option Q;
  status : span_status;
  inputs : value;
  outputs : value;
  error : option string;
  error_type : option string;
  llm_calls : list llm_call;
  metadata : value
}.
End Span.

Module Trace.
(** Modelled from the spec: the Trace of the absent engine's data model.
    The aggregate metadata (span count, total duration, overall status)
    is not stored: it is a function of the spans. *)
Record t := Make {
  trace_id : string;
  name : option string;
  spans : list Span.t;
  agent_id : option string;
  framework : option string
}.

(** Modelled from the spec: the aggregate view of a trace (absent engine):
    span count, max end_time minus min start_time, error if any span
    errored else success. *)
Definition span_count (tr : t) : nat := length (spans tr).

Definition status (tr : t) : span_status :=
  if existsb (fun s => bool_decide (Span.status s = Error)) (spans tr)
  then Error else Success.

Definition min_start (ss : list Span.t) : option Q :=
  foldr (fun s acc => Some (from_option (Qmin (Span.start_time s)) (Span.start_time s) acc))
        None ss.

Definition max_end (ss : list Span.t) : option Q :=
  foldr (fun s acc =>
           match Span.end_time s, acc with
           | Some e, Some m => Some (Qmax e m)
           | Some e, None => Some e
           | None, _ => acc
           end) None ss.

Definition total_duration_ms (tr : t) : Q :=
  match max_end (spans tr), min_start (spans tr) with
  | Some e, Some s => e - s
  | _, _ => 0
  end%Q.
End Trace.

(** Modelled from the spec: the summary projection the index holds for
    each trace (absent storage backend). *)
Record summary := Summary {
  sum_trace_id : string;
  sum_name : option string;
  sum_status : span_status;
  sum_span_count : nat;
  sum_total_duration_ms : Q;
  sum_start_time : option Q;
  sum_agent_id : option string;
  sum_framework : option string
}.

(** Modelled from the spec: the projection of a trace onto its summary
    (absent storage backend). *)
Definition summary_of (tr : Trace.t) : summary :=
  {| sum_trace_id := Trace.trace_id tr;
     sum_name := Trace.name tr;
     sum_status := Trace.status tr;
     sum_span_count := Trace.span_count tr;
     sum_total_duration_ms := Trace.total_duration_ms tr;
     sum_start_time := Trace.min_start (Trace.spans tr);
     sum_agent_id := Trace.agent_id tr;
     sum_framework := Trace.framework tr |}.

(** *** Serialization to the record layout of the external interface *)

(** Modelled from the spec: an optional member of a record of the
    external interface is left out when absent (absent serializer). *)
Definition optional_field (k : string) (v : option value) : list (string * value) :=
  match v with Some x => [(k, x)] | None => [] end.

(** Modelled from the spec: the three status words of the external
    interface (absent serializer). *)
Definition encode_status (st : span_status) : value :=
  VStr match st with Running => "running" | Success => "success" | Error => "error" end.

Definition encode_optional_num (q : option Q) : value := from_option VNum VNull q.

(** Modelled from the spec: the LLM-call record of the external
    interface (absent serializer). *)
Definition encode_llm_call (c : llm_call) : value :=
  VObj ([("model", VStr (model c)); ("prompt", VStr (prompt c));
         ("response", VStr (response c));
         ("tokens", VObj [("input", VNum (inject_Z (tokens_input c)));
                          ("output", VNum (inject_Z (tokens_output c)))]);
         ("latency_ms", VNum (latency_ms c))]
        ++ optional_field "cost" (VNum <$> cost c)).

(** Modelled from the spec: the full span record of the external
    interface, as the absent storage backend persists it. *)
Definition encode_span (s : Span.t) : value :=
  VObj ([("span_id", VStr (Span.span_id s))]
        ++ optional_field "parent_span_id" (VStr <$> Span.parent_span_id s)
        ++ [("trace_id", VStr (Span.trace_id s));
            ("name", VStr (Span.name s));
            ("span_type", VStr (Span.span_type s));
            ("start_time", VNum (Span.start_time s));
            ("end_time", encode_optional_num (Span.end_time s));
            ("duration_ms", encode_optional_num (Span.duration_ms s));
            ("status", encode_status (Span.status s));
            ("inputs", Span.inputs s);
            ("outputs", Span.outputs s);
            ("llm_calls", VArr (encode_llm_call <$> Span.llm_calls s))]
        ++ optional_field "error" (VStr <$> Span.error s)
        ++ optional_field "error_type" (VStr <$> Span.error_type s)
        ++ [("metadata", Span.metadata s)]).

(** Modelled from the spec: the full trace record of the external
    interface (absent storage backend), with the aggregate metadata
    computed from the spans. *)
Definition encode_trace (tr : Trace.t) : value :=
  VObj ([("trace_id", VStr (Trace.trace_id tr))]
        ++ optional_field "name" (VStr <$> Trace.name tr)
        ++ [("metadata",
             VObj ([("total_duration_ms", VNum (Trace.total_duration_ms tr));
                    ("span_count", num_of_nat (Trace.span_count tr))]
                   ++ optional_field "agent_id" (VStr <$> Trace.agent_id tr)
                   ++ optional_field "framework" (VStr <$> Trace.framework tr)));
            ("spans", VArr (encode_span <$> Trace.spans tr))]).

(** Modelled from the spec: the trace summary of the external interface
    (absent query service). *)
Definition encode_summary (m : summary) : value :=
  VObj ([("trace_id", VStr (sum_trace_id m))]
        ++ optional_field "name" (VStr <$> sum_name m)
        ++ [("status", encode_status (sum_status m));
            ("span_count", num_of_nat (sum_span_count m));
            ("total_duration_ms", VNum (sum_total_duration_ms m));
            ("start_time", encode_optional_num (sum_start_time m))]
        ++ optional_field "agent_id" (VStr <$> sum_agent_id m)
        ++ optional_field "framework" (VStr <$> sum_framework m)).

(** Modelled from the spec: reading a record of the external interface
    back, member by member (absent deserializer of the storage backend). *)
Definition field (k : string) (v : value) : value :=
  match v with VObj fields => lookup_field k fields | _ => VUndef end.

Definition decode_string (v : value) : option string :=
  match v with VStr s => Some s | _ => None end.

Definition decode_optional_string (v : value) : option (option string) :=
  match v with VUndef => Some None | VStr s => Some (Some s) | _ => None end.

Definition decode_num (v : value) : option Q :=
  match v with VNum q => Some q | _ => None end.

Definition decode_optional_num (v : value) : option (option Q) :=
  match v with VUndef | VNull => Some None | VNum q => Some (Some q) | _ => None end.

Definition decode_int (v : value) : option Z :=
  match v with VNum (Qmake z 1) => Some z | _ => None end.

Definition decode_status (v : value) : option span_status :=
  match v with
  | VStr s =>
      if String.eqb s "running" then Some Running
      else if String.eqb s "success" then Some Success
      else if String.eqb s "error" then Some Error
      else None
  | _ => None
  end.

Definition decode_list {A} (f : value -> option A) (v : value) : option (list A) :=
  match v with VArr items => mapM f items | _ => None end.

Definition decode_llm_call (v : value) : option llm_call :=
  m ← decode_string (field "model" v);
  p ← decode_string (field "prompt" v);
  r ← decode_string (field "response" v);
  ti ← decode_int (field "input" (field "tokens" v));
  to ← decode_int (field "output" (field "tokens" v));
  l ← decode_num (field "latency_ms" v);
  c ← decode_optional_num (field "cost" v);
  Some (LlmCall m p r ti to l c).

(** Modelled from the spec: the inverse reading of the full span record
    (absent deserializer). *)
Definition decode_span (v : value) : option Span.t :=
  span_id ← decode_string (field "span_id" v);
  parent ← decode_optional_string (field "parent_span_id" v);
  trace_id ← decode_string (field "trace_id" v);
  name ← decode_string (field "name" v);
  span_type ← decode_string (field "span_type" v);
  start_time ← decode_num (field "start_time" v);
  end_time ← decode_optional_num (field "end_time" v);
  duration_ms ← decode_optional_num (field "duration_ms" v);
  status ← decode_status (field "status" v);
  llm_calls ← decode_list decode_llm_call (field "llm_calls" v);
  error ← decode_optional_string (field "error" v);
  error_type ← decode_optional_string (field "error_type" v);
  Some (Span.Make span_id parent trace_id name span_type start_time end_time
          duration_ms status (field "inputs" v) (field "outputs" v)
          error error_type llm_calls (field "metadata" v)).

(** Modelled from the spec: the inverse reading of the full trace
    record; the aggregates are not read, they follow from the spans
    (absent deserializer). *)
Definition decode_trace (v : value) : option Trace.t :=
  trace_id ← decode_string (field "trace_id" v);
  name ← decode_optional_string (field "name" v);
  spans ← decode_list decode_span (field "spans" v);
  agent_id ← decode_optional_string (field "agent_id" (field "metadata" v));
  framework ← decode_optional_string (field "framework" (field "metadata" v));
  Some (Trace.Make trace_id name spans agent_id framework).

(** *** Storage backend *)

Module Storage.
(** Modelled from the spec: the state of the absent storage backend, the
    full records keyed by trace_id and the index of summary
    projections. *)
Record store := Store {
  records : gmap string value;
  index : gmap string summary
}.

Definition empty : store := Store ∅ ∅.

(** Modelled from the spec: [save] of the absent storage backend writes
    the full record keyed by trace_id, then updates the index with the
    summary projection; a second save of the same trace_id wins. *)
Definition save (tr : Trace.t) (s : store) : store :=
  let records' := <[Trace.trace_id tr := encode_trace tr]> (records s) in
  Store records' (<[Trace.trace_id tr := summary_of tr]> (index s)).

(** Modelled from the spec: [load] of the absent storage backend returns
    the full trace record, or not_found ([None]). *)
Definition load (trace_id : string) (s : store) : option Trace.t :=
  records s !! trace_id ≫= decode_trace.

(** Modelled from the spec: [list] of the absent storage backend returns
    the summary projections of all known traces, in no promised order. *)
Definition list (s : store) : list summary :=
  (map_to_list (index s)).*2.
End Storage.

(** *** Query service *)

Module Query.
Inductive request := ListTraces | GetTrace (trace_id : string).

Inductive reply :=
  | Summaries (l : list summary)
  | FullTrace (tr : Trace.t)
  | NotFound.

(** Modelled from the spec: the read-only operations of the absent query
    service; each returns the store it was given. *)
Definition list_traces (s : Storage.store) : list summary * Storage.store := (Storage.list s, s).

Definition get_trace (trace_id : string) (s : Storage.store) : option Trace.t * Storage.store :=
  (Storage.load trace_id s, s).

Definition serve (r : request) (s : Storage.store) : reply * Storage.store :=
  match r with
  | ListTraces => let '(l, s') := list_traces s in (Summaries l, s')
  | GetTrace id =>
      let '(o, s') := get_trace id s in
      (from_option FullTrace NotFound o, s')
  end.

(** Modelled from the spec: the bodies the absent HTTP boundary sends for
    [GET /api/traces] and [GET /api/trace/{trace_id}]; an unknown
    identifier gets an error body. *)
Definition body (rep : reply) : value :=
  match rep with
  | Summaries l => VArr (encode_summary <$> l)
  | FullTrace tr => encode_trace tr
  | NotFound => VObj [("error", VStr "Trace not found")]
  end.

Definition http (r : request) (s : Storage.store) : Js.response :=
  Body (body (serve r s).1).
End Query.

(** *** Tracer, one execution context *)

Module Tracer.

(** Modelled from the spec: the recording context of the absent tracer
    for one execution context: the stack of open spans (innermost
    first), the closed spans of the active trace, the active trace
    identifier, the identifier supply, the last timestamp issued (absent
    before the first), the storage backend and the diagnostics surfaced
    so far. *)
Record t := Make {
  stack : list Span.t;
  closed : list Span.t;
  active_trace : option string;
  next_id : nat;
  clock : option Q;
  storage : Storage.store;
  diagnostics : list string
}.

Definition init (s : Storage.store) : t := Make [] [] None 0 None s [].

(** Modelled from the spec: the time source of the absent tracer.  The
    operations take no time argument: the tracer reads the wall clock
    itself, and the reading is an input of the model.  The spec promises
    timestamps that never run backwards inside a context (an end is not
    before its start, a child starts no earlier than its parent, a
    parent ends no earlier than a child closed before it), which a bare
    wall clock does not give; the tracer therefore issues timestamps
    through a monotonic source: a reading earlier than the last
    timestamp issued is replaced by that timestamp. *)
Definition stamp (reading : Q) (tr : t) : Q :=
  from_option (fun last => Qmax last reading) reading (clock tr).

(** Modelled from the spec: [start_span] of the absent tracer.  With no
    active trace it begins one and the span is its root; otherwise the
    parent is the top of the stack.  Fails only on an empty name. *)
Definition start_span (name span_type : string) (inputs : value) (reading : Q) (tr : t)
    : option (string * t) :=
  if String.eqb name EmptyString then None
  else
    let now := stamp reading tr in
    let trace_id := default ("trace-" +:+ pretty (next_id tr)) (active_trace tr) in
    let span_id := "span-" +:+ pretty (next_id tr) in
    let span :=
      Span.Make span_id (Span.span_id <$> head (stack tr)) trace_id name span_type
        now None None Running inputs VNull None None [] (VObj []) in
    Some (span_id,
          Make (span :: stack tr) (closed tr) (Some trace_id) (S (next_id tr))
               (Some now) (storage tr) (diagnostics tr)).

(** Modelled from the spec: closing a span in the absent tracer stamps
    [end_time], computes [duration_ms], sets status and error. *)
Definition close (now : Q) (outputs : value) (st : span_status)
    (error error_type : option string) (s : Span.t) : Span.t :=
  Span.Make (Span.span_id s) (Span.parent_span_id s) (Span.trace_id s)
    (Span.name s) (Span.span_type s) (Span.start_time s)
    (Some now) (Some (now - Span.start_time s)%Q) st
    (Span.inputs s) outputs error error_type (Span.llm_calls s) (Span.metadata s).

Definition force_close (now : Q) (s : Span.t) : Span.t :=
  close now (Span.outputs s) Error (Some "span closed out of order") (Some "UsageError") s.

(** The spans opened inside [handle], the span itself, the spans around it. *)
Fixpoint split_at (handle : string) (st : list Span.t)
    : option (list Span.t * Span.t * list Span.t) :=
  match st with
  | [] => None
  | s :: rest =>
      if String.eqb (Span.span_id s) handle then Some ([], s, rest)
      else '(inner, target, outer) ← split_at handle rest;
           Some (s :: inner, target, outer)
  end.

(** Modelled from the spec: when the root has closed, the absent tracer
    hands the trace to the storage backend and clears the active trace
    identifier. *)
Definition finalize (tr : t) : t :=
  match stack tr, active_trace tr with
  | [], Some trace_id =>
      let root := List.find (fun s => bool_decide (Span.parent_span_id s = None)) (closed tr) in
      let trace := Trace.Make trace_id (Span.name <$> root) (closed tr) None None in
      Make [] [] None (next_id tr) (clock tr) (Storage.save trace (storage tr))
           (diagnostics tr)
  | _, _ => tr
  end.

(** Modelled from the spec: [end_span] of the absent tracer.  The handle
    on top of the stack is closed as asked.  A handle further down is a
    usage error: the spans still open inside it are force-closed as
    errored, the span itself is closed as errored, and a diagnostic is
    kept.  An unknown handle only leaves a diagnostic. *)
Definition end_span (handle : string) (outputs : value) (st : span_status)
    (error error_type : option string) (reading : Q) (tr : t) : t :=
  let now := stamp reading tr in
  match split_at handle (stack tr) with
  | Some ([], target, outer) =>
      finalize (Make outer (closed tr ++ [close now outputs st error error_type target])
                  (active_trace tr) (next_id tr) (Some now) (storage tr) (diagnostics tr))
  | Some (inner, target, outer) =>
      finalize (Make outer
                  (closed tr ++ (force_close now <$> inner)
                     ++ [close now outputs Error (Some "closed with open children")
                           (Some "UsageError") target])
                  (active_trace tr) (next_id tr) (Some now) (storage tr)
                  (diagnostics tr ++ ["end_span: span closed out of order"]))
  | None =>
      Make (stack tr) (closed tr) (active_trace tr) (next_id tr) (clock tr) (storage tr)
           (diagnostics tr ++ ["end_span: unknown span handle"])
  end.

(** Modelled from the spec: [add_llm_call] of the absent tracer appends
    to the innermost open span, or leaves a diagnostic. *)
Definition add_llm_call (c : llm_call) (tr : t) : t :=
  match stack tr with
  | s :: rest =>
      let s' :=
        Span.Make (Span.span_id s) (Span.parent_span_id s) (Span.trace_id s)
          (Span.name s) (Span.span_type s) (Span.start_time s) (Span.end_time s)
          (Span.duration_ms s) (Span.status s) (Span.inputs s) (Span.outputs s)
          (Span.error s) (Span.error_type s) (Span.llm_calls s ++ [c]) (Span.metadata s) in
      Make (s' :: rest) (closed tr) (active_trace tr) (next_id tr) (clock tr)
           (storage tr) (diagnostics tr)
  | [] =>
      Make [] (closed tr) (active_trace tr) (next_id tr) (clock tr) (storage tr)
           (diagnostics tr ++ ["add_llm_call: no open span"])
  end.

Inductive op :=
  | StartSpan (name span_type : string) (inputs : value)
  | EndSpan (handle : string) (outputs : value) (st : span_status)
      (error error_type : option string)
  | AddLlmCall (c : llm_call).

(** Modelled from the spec: one instrumentation call on the absent
    tracer, made when the wall clock reads [reading]; any reading is
    allowed, also one earlier than the previous. *)
Definition step (tr : t) (ev : Q * op) : t :=
  let '(reading, o) := ev in
  match o with
  | StartSpan name span_type inputs =>
      from_option snd tr (start_span name span_type inputs reading tr)
  | EndSpan handle outputs st error error_type =>
      end_span handle outputs st error error_type reading tr
  | AddLlmCall c => add_llm_call c tr
  end.

Definition run (events : list (Q * op)) (tr : t) : t := foldl step tr events.


End Tracer.

End Engine.

(** ** Vocabulary of the statements and the inputs of the examples *)

Import Js Dom.

Definition nullish (v : value) : bool :=
  match v with VUndef | VNull => true | _ => false end.

Definition is_number (v : value) : bool :=
  match v with VNum _ => true | _ => false end.

(** The property [k] of [v] where the read cannot throw. *)
Definition prop (k : string) (v : value) : value :=
  match get v k with Ok x => x | Throw _ => VUndef end.

(** The error body of the external interface, [{error: ...}] whatever
    the value of the member: an object with an [error] member that is
    neither a trace (it has no [spans]) nor a list (it has no
    [length]). *)
Definition error_body (v : value) : bool :=
  match v with
  | VObj fields =>
      has_key "error" fields
      && negb (has_key "spans" fields)
      && negb (has_key "length" fields)
  | _ => false
  end.

(** A response that signals absence or failure: the fetch rejects, the
    body is not valid JSON, or the body is an error body. *)
Definition signals_failure (r : response) : bool :=
  match r with
  | FetchRejects _ | JsonRejects _ => true
  | Body v => error_body v
  end.

(** A span both views can draw: [(span.duration_ms || 0).toFixed] finds
    a number, [span.llm_calls.length] can be read and compared with 0,
    and every value a template interpolates or builds a date from
    ([span_id], [name], [span_type], [start_time]) converts to a
    primitive. *)
Definition renderable_span (s : value) : bool :=
  is_number (or_else (prop "duration_ms" s) (VNum 0))
  && negb (nullish (prop "llm_calls" s))
  && printable (prop "length" (prop "llm_calls" s))
  && printable (prop "span_id" s)
  && printable (prop "name" s)
  && printable (prop "span_type" s)
  && printable (prop "start_time" s).

(** [currentTrace.spans[0] || {}] where the reads cannot throw. *)
Definition first_span (trace : value) : value :=
  or_else (match get_index (prop "spans" trace) 0 with Ok v => v | Throw _ => VUndef end)
          (VObj []).

(** A trace whose header can be drawn:
    [(metadata.total_duration_ms || 0).toFixed] finds a number, and
    every value written as text or turned into a date (the name or its
    default, [trace_id], the span count or its default, the first
    span's [start_time], the agent and the framework) converts to a
    primitive. *)
Definition renderable_metadata (trace : value) : bool :=
  let metadata := or_else (prop "metadata" trace) (VObj []) in
  is_number (or_else (prop "total_duration_ms" metadata) (VNum 0))
  && printable (or_else (prop "name" trace) (VStr "Trace"))
  && printable (prop "trace_id" trace)
  && printable (or_else (prop "span_count" metadata) (VNum 0))
  && printable (prop "start_time" (first_span trace))
  && printable (prop "agent_id" metadata)
  && printable (prop "framework" metadata).

(** Time value in milliseconds of the date the viewer builds from a
    span's [start_time]; [None] when the date is invalid or cannot be
    built. *)
Definition start_ms (h : host) (s : value) : option Z :=
  match Date_value h (prop "start_time" s) with
  | Ok t => t
  | Throw _ => None
  end.

(** A span the comparator can date: reading [start_time] does not throw
    and the date built from it is valid. *)
Definition dated (h : host) (s : value) : Prop :=
  nullish s = false /\ is_Some (start_ms h s).

(** The [span_id]s behind the nodes of a view, in the order drawn. *)
Definition rendered_ids (c : option content) : list value :=
  match c with
  | Some (SpanNodes nodes) => sn_onclick <$> nodes
  | Some (SpanRows rows) => sr_onclick <$> rows
  | _ => []
  end.

(** [a] does not start after [b], in whole milliseconds. *)
Definition ms_le (h : host) (a b : value) : Prop :=
  exists x y, start_ms h a = Some x /\ start_ms h b = Some y /\ x <= y.

(** [a] starts strictly before [b], comparing the numbers the record
    carries. *)
Definition starts_before (a b : value) : Prop :=
  match prop "start_time" a, prop "start_time" b with
  | VNum x, VNum y => (x < y)%Q
  | _, _ => False
  end.

(** A host that parses no date string and reads no number from text; the
    example inputs carry numeric timestamps only. *)
Definition numeric_host : host :=
  Host (fun _ => None) (fun _ => "[object Object]") (fun _ => None).

Definition blank_page : TraceViewer.page := TraceViewer.Page VNull ∅ false.

Definition example_span (id : string) (start : Q) (st : string) : value :=
  VObj [("span_id", VStr id); ("name", VStr "step"); ("span_type", VStr "tool_call");
        ("start_time", VNum start); ("duration_ms", VNum 3);
        ("status", VStr st); ("llm_calls", VArr [])].

Definition example_trace (spans : list value) : value :=
  VObj [("trace_id", VStr "tr_1"); ("name", VStr "demo");
        ("metadata", VObj [("total_duration_ms", VNum 7); ("span_count", VNum 2)]);
        ("spans", VArr spans)].


(** An object no conversion to text or number completes on. *)
Definition unprintable : value := VObj [("toString", VNum 1)].

(** Two spans 0.3 ms apart, the later one first in the record. *)
Definition late_span : value := example_span "late" (3 # 2) "success".
Definition early_span : value := example_span "early" (6 # 5) "success".

(** The span's [status] is exactly the string "error". *)
Definition has_error_status (s : value) : Prop := prop "status" s = VStr "error".

(** The viewer's page once a trace holding the two spans, later one
    first, has been stored in [currentTrace]. *)
Definition reversed_page : TraceViewer.page :=
  TraceViewer.Page (example_trace [late_span; early_span]) ∅ false.




(** A run of the tracer: a root span, a nested span with one LLM call,
    both closed in order. *)
Definition example_run : list (Q * Engine.Tracer.op) :=
  [(10%Q, Engine.Tracer.StartSpan "classify_intent" "agent_decision" VNull);
   (12%Q, Engine.Tracer.StartSpan "lookup" "tool_call" VNull);
   (15%Q, Engine.Tracer.AddLlmCall (Engine.LlmCall "m1" "p" "r" 50 20 3 None));
   (19%Q, Engine.Tracer.EndSpan "span-1" VNull Engine.Success None None);
   (25%Q, Engine.Tracer.EndSpan "span-0" VNull Engine.Success None None)].

(** A run whose wall clock is set back between the start and the end of
    the only span. *)
Definition clock_set_back_run : list (Q * Engine.Tracer.op) :=
  [(10%Q, Engine.Tracer.StartSpan "classify_intent" "agent_decision" VNull);
   (5%Q, Engine.Tracer.EndSpan "span-0" VNull Engine.Success None None)].

(** *** Vocabulary of the further properties *)

Definition is_string (v : value) : bool :=
  match v with VStr _ => true | _ => false end.

(** Every element outside [ids] has in [m'] the content it has in [m]. *)
Definition unchanged_outside (ids : list string) (m m' : gmap string content) : Prop :=
  forall id, id ∉ ids -> m' !! id = m !! id.

(** The elements the viewer's load path assigns to. *)
Definition viewer_ids : list string :=
  ["trace-title"; "trace-id"; "trace-metadata"; "execution-graph"; "span-list"].

(** The four statistics cards of the dashboard. *)
Definition stat_ids : list string :=
  ["total-traces"; "success-rate"; "avg-duration"; "total-spans"].

(** [t => t.status === 'success'] where the read cannot throw. *)
Definition is_success (t : value) : bool :=
  strict_eq (prop "status" t) (VStr "success").

(** A summary the two sums of the statistics can take: not null, and the
    duration and the span count (or the 0 that stands in for a falsy
    one) convert to a primitive. *)
Definition summable_summary (t : value) : bool :=
  negb (nullish t)
  && printable (or_else (prop "total_duration_ms" t) (VNum 0))
  && printable (or_else (prop "span_count" t) (VNum 0)).

(** A summary the dashboard can draw: not null,
    [(trace.total_duration_ms || 0).toFixed] finds a number, and every
    value a template interpolates or builds a date from converts to a
    primitive. *)
Definition renderable_summary (t : value) : bool :=
  negb (nullish t)
  && is_number (or_else (prop "total_duration_ms" t) (VNum 0))
  && printable (prop "trace_id" t)
  && printable (or_else (prop "name" t) (VStr "Unnamed trace"))
  && printable (prop "status" t)
  && printable (or_else (prop "span_count" t) (VNum 0))
  && printable (prop "start_time" t)
  && printable (prop "agent_id" t)
  && printable (prop "framework" t).

(** An LLM call the modal can draw: not null, [latency_ms] a number,
    [cost] falsy or a number, and [model], [prompt] and [response]
    convert to a primitive. *)
Definition renderable_call (c : value) : bool :=
  negb (nullish c)
  && is_number (prop "latency_ms" c)
  && (negb (truthy (prop "cost" c)) || is_number (prop "cost" c))
  && printable (prop "model" c)
  && printable (prop "prompt" c)
  && printable (prop "response" c).

(** A span whose detail the modal can draw once its LLM calls are:
    [(span.duration_ms || 0).toFixed] finds a number, and [name],
    [span_type], [status] and, when [error] is truthy, [error_type] and
    [error] convert to a primitive. *)
Definition renderable_detail (s : value) : bool :=
  is_number (or_else (prop "duration_ms" s) (VNum 0))
  && printable (prop "name" s)
  && printable (prop "span_type" s)
  && printable (prop "status" s)
  && (negb (truthy (prop "error" s))
      || (printable (prop "error_type" s) && printable (prop "error" s))).

Definition example_summary (id : string) (st : string) (duration : value) : value :=
  VObj [("trace_id", VStr id); ("name", VStr "run"); ("status", VStr st);
        ("span_count", VNum 2); ("total_duration_ms", duration);
        ("start_time", VNum 5)].

Definition example_call (latency : value) : value :=
  VObj [("model", VStr "m1"); ("prompt", VStr "p"); ("response", VStr "r");
        ("tokens", VObj [("input", VNum 50); ("output", VNum 20)]);
        ("latency_ms", latency)].

(** ** Reading properties and running statements *)

Lemma get_not_nullish v k : nullish v = false -> get v k = Ok (prop k v).
Proof. unfold prop. by destruct v. Qed.

Lemma prop_obj k fields : prop k (VObj fields) = lookup_field k fields.
Proof. reflexivity. Qed.

Lemma toFixed_number v : is_number v = true -> exists q, v = VNum q /\ toFixed v = Ok q.
Proof. destruct v; try done. eauto. Qed.

Lemma lookup_set_field k k' v fields :
  lookup_field k (set_field k' v fields) =
  if String.eqb k k' then v else lookup_field k fields.
Proof.
  induction fields as [|[k0 v0] fields IH]; simpl.
  - by destruct (String.eqb k k').
  - destruct (String.eqb_spec k' k0) as [->|Hne]; simpl.
    + by destruct (String.eqb k k0).
    + destruct (String.eqb_spec k k0) as [->|Hne'].
      * destruct (String.eqb_spec k0 k'); congruence.
      * apply IH.
Qed.


(** *** Conversions to a primitive *)

Lemma ToPrimitive_printable v : printable v = true -> ToPrimitive v = Ok v.
Proof. unfold ToPrimitive. by intros ->. Qed.

(** The object of the examples is what the conversions throw on, alone
    or inside an array. *)
Lemma unprintable_throws (h : host) :
  (exists e, ToPrimitive unprintable = Throw e)
  /\ (exists e, ToPrimitive (VArr [VNum 1; unprintable]) = Throw e)
  /\ (exists e, Date_value h unprintable = Throw e)
  /\ (exists e, gt_zero h unprintable = Throw e)
  /\ ToPrimitive (VObj [("valueOf", VNum 1)]) = Ok (VObj [("valueOf", VNum 1)]).
Proof. repeat split; try (eexists; reflexivity). Qed.

Lemma is_number_printable v : is_number v = true -> printable v = true.
Proof. by destruct v. Qed.

Lemma optional_printable v :
  printable v = true ->
  TraceViewer.optional v = Ok (if truthy v then Some v else None).
Proof.
  intros Hv. unfold TraceViewer.optional. rewrite (ToPrimitive_printable _ Hv).
  by destruct (truthy v).
Qed.

Lemma gt_zero_printable h v : printable v = true -> exists b, gt_zero h v = Ok b.
Proof. intros Hv. unfold gt_zero. rewrite (ToPrimitive_printable _ Hv). simpl. eauto. Qed.

Lemma gt_zero_length h n : gt_zero h (num_of_nat n) = Ok (bool_decide (n <> 0%nat)).
Proof. by destruct n. Qed.

Lemma Date_value_start_ms h s :
  printable (prop "start_time" s) = true ->
  Date_value h (prop "start_time" s) = Ok (start_ms h s).
Proof.
  intros Hs. unfold start_ms, Date_value. by rewrite (ToPrimitive_printable _ Hs).
Qed.

Lemma start_ms_printable h s t :
  start_ms h s = Some t -> printable (prop "start_time" s) = true.
Proof.
  unfold start_ms, Date_value, ToPrimitive.
  by destruct (printable (prop "start_time" s)).
Qed.

(** Splits the conjunctions of a boolean hypothesis into its parts. *)
Ltac split_andb :=
  repeat match goal with
         | H : _ && _ = true |- _ => apply andb_prop in H as [? ?]
         end.

(** Runs the statements of a function: every conversion whose operand is
    known to convert, every read of a value known not to be null. *)
Ltac convert :=
  repeat match goal with
         | H : printable ?v = true |- context [ToPrimitive ?v] =>
             rewrite (ToPrimitive_printable v H); simpl
         end.

(** ** The viewer and the dashboard on failure responses *)




(** Every body the query service sends for an identifier the store does
    not know is an error body. *)
Lemma not_found_reply_signals_failure (s : Engine.Storage.store) (id : string) :
  Engine.Storage.load id s = None ->
  signals_failure (Engine.Query.http (Engine.Query.GetTrace id) s) = true.
Proof.
  intros Hload.
  unfold Engine.Query.http, Engine.Query.serve, Engine.Query.get_trace. by rewrite Hload.
Qed.

(** The scenario of the specification: for an identifier the store does
    not know, the trace endpoint sends the not-found body and the viewer
    shows its message. *)
Lemma unknown_trace_renders_not_found
    (h : host) (s : Engine.Storage.store) (id : string) (p : TraceViewer.page) :
  Engine.Storage.load id s = None ->
  exists p',
    TraceViewer.loadTrace h (Engine.Query.http (Engine.Query.GetTrace id) s) p = (Ok (), p')
    /\ TraceViewer.elements p' !! "trace-metadata"
       = Some (ErrorMessage EmptyString (VStr "Trace not found")).
Proof.
  intros Hload.
  unfold Engine.Query.http, Engine.Query.serve, Engine.Query.get_trace. rewrite Hload.
  eexists. split; [reflexivity|]. simpl. apply lookup_insert_eq.
Qed.

(** An error body whose message is empty, null or an object that has no
    text still ends in an error message: the viewer falls through to
    the rendering, which finds no spans, or fails to print the message;
    either way the catch block writes "Error loading trace: ...". *)
Lemma error_body_without_usable_message (h : host) :
  Forall (fun v =>
            exists detail,
              TraceViewer.elements
                (TraceViewer.loadTrace h (Body (VObj [("error", v)])) blank_page).2
              !! "trace-metadata"
              = Some (ErrorMessage "Error loading trace: " detail))
         [VStr EmptyString; VNull; unprintable].
Proof. repeat constructor; eexists; reflexivity. Qed.

(** ** The status shown in the trace header *)

Lemma strict_eq_error v : strict_eq v (VStr "error") = true <-> v = VStr "error".
Proof.
  destruct v; simpl; try (split; [done|congruence]).
  split; [intros ->%String.eqb_eq; done | intros [= ->]; done].
Qed.

Lemma or_else_object_not_nullish v : nullish (or_else v (VObj [])) = false.
Proof. unfold or_else. destruct (truthy v) eqn:E; [by destruct v | done]. Qed.

Lemma is_error_span_ok s :
  nullish s = false ->
  TraceViewer.is_error_span s = Ok (strict_eq (prop "status" s) (VStr "error")).
Proof. intros Hs. unfold TraceViewer.is_error_span. by rewrite (get_not_nullish _ _ Hs). Qed.

Lemma array_some_error_spans items :
  Forall (fun s => nullish s = false) items ->
  array_some TraceViewer.is_error_span items
  = Ok (existsb (fun s => strict_eq (prop "status" s) (VStr "error")) items).
Proof.
  induction 1 as [|s items Hs _ IH]; [done|].
  simpl. rewrite (is_error_span_ok _ Hs). simpl.
  destruct (strict_eq _ _); [done|]. apply IH.
Qed.

Lemma existsb_error_status items :
  existsb (fun s => strict_eq (prop "status" s) (VStr "error")) items = true
  <-> exists s, s ∈ items /\ has_error_status s.
Proof.
  rewrite existsb_exists. unfold has_error_status.
  split; intros (s & Hin & Hs); exists s.
  - by rewrite list_elem_of_In, <- strict_eq_error.
  - by rewrite <- list_elem_of_In, strict_eq_error.
Qed.

(** What [renderTraceMetadata] writes for a trace whose spans are not
    null and whose header can be drawn. *)
Lemma renderTraceMetadata_ok (p : TraceViewer.page) fields items :
  TraceViewer.currentTrace p = VObj fields ->
  lookup_field "spans" fields = VArr items ->
  Forall (fun s => nullish s = false) items ->
  renderable_metadata (VObj fields) = true ->
  exists q,
    toFixed (or_else (prop "total_duration_ms"
                        (or_else (lookup_field "metadata" fields) (VObj []))) (VNum 0))
    = Ok q
    /\ TraceViewer.renderTraceMetadata p
       = (Ok (),
          TraceViewer.Page (VObj fields)
            (<["trace-metadata" :=
                 MetadataGrid
                   {| mg_status_class :=
                        if existsb (fun s => strict_eq (prop "status" s) (VStr "error")) items
                        then "error" else "success";
                      mg_status_label :=
                        if existsb (fun s => strict_eq (prop "status" s) (VStr "error")) items
                        then "Error" else "Success";
                      mg_total_duration := q;
                      mg_span_count :=
                        or_else (prop "span_count"
                                   (or_else (lookup_field "metadata" fields) (VObj [])))
                                (VNum 0);
                      mg_start_time :=
                        prop "start_time"
                          (or_else (default VUndef (items !! 0%nat)) (VObj []));
                      mg_agent :=
                        (let agent :=
                           prop "agent_id"
                             (or_else (lookup_field "metadata" fields) (VObj [])) in
                         if truthy agent then Some agent else None);
                      mg_framework :=
                        (let framework :=
                           prop "framework"
                             (or_else (lookup_field "metadata" fields) (VObj [])) in
                         if truthy framework then Some framework else None) |}]>
               (<["trace-id" := Text (lookup_field "trace_id" fields)]>
                  (<["trace-title" :=
                       Text (or_else (lookup_field "name" fields) (VStr "Trace"))]>
                     (TraceViewer.elements p))))
            (TraceViewer.modal_active p)).
Proof.
  intros Hct Hspans Hobj Hmeta.
  unfold renderable_metadata, first_span in Hmeta. rewrite !prop_obj in Hmeta.
  rewrite Hspans in Hmeta. simpl in Hmeta. split_andb.
  match goal with H : is_number _ = true |- _ =>
    apply toFixed_number in H as (q & _ & Hfix) end.
  exists q. split; [done|].
  unfold TraceViewer.renderTraceMetadata, TraceViewer.read_currentTrace, Js.bind, eval,
    TraceViewer.set_content.
  rewrite Hct. cbn [get]. convert. rewrite Hspans.
  cbn [get get_index as_array mbind outcome_bind String.eqb Ascii.eqb Bool.eqb].
  rewrite (ToPrimitive_printable (num_of_nat _)) by done.
  rewrite (array_some_error_spans _ Hobj). cbn [mbind outcome_bind].
  rewrite !(get_not_nullish _ _ (or_else_object_not_nullish _)). cbn [mbind outcome_bind].
  rewrite Hfix. cbn [mbind outcome_bind]. convert.
  rewrite !optional_printable by done. simpl. rewrite ?Hct. reflexivity.
Qed.

(** C2.  For a trace whose spans are objects and whose header can be
    drawn, [renderTraceMetadata] completes and the status it writes into
    the header is "error" when at least one span has status "error" and
    "success" otherwise.  The statement holds for every other content of
    the trace record, so a stored aggregate status plays no part. *)
Theorem trace_status_from_spans
    (p : TraceViewer.page) (fields : list (string * value)) (items : list value) :
  TraceViewer.currentTrace p = VObj fields ->
  lookup_field "spans" fields = VArr items ->
  Forall (fun s => nullish s = false) items ->
  renderable_metadata (VObj fields) = true ->
  exists g p',
    TraceViewer.renderTraceMetadata p = (Ok (), p')
    /\ TraceViewer.elements p' !! "trace-metadata" = Some (MetadataGrid g)
    /\ ((exists s, s ∈ items /\ has_error_status s) ->
        mg_status_class g = "error" /\ mg_status_label g = "Error")
    /\ ((~ exists s, s ∈ items /\ has_error_status s) ->
        mg_status_class g = "success" /\ mg_status_label g = "Success").
Proof.
  intros Hct Hspans Hobj Hmeta.
  destruct (renderTraceMetadata_ok p fields items Hct Hspans Hobj Hmeta) as (q & _ & ->).
  eexists _, _. split; [reflexivity|]. split; [apply lookup_insert_eq|]. simpl.
  rewrite <- existsb_error_status.
  destruct (existsb _ items); split; intros H; done.
Qed.

Lemma trace_status_from_spans_witness :
  exists g p',
    TraceViewer.renderTraceMetadata
      (TraceViewer.Page (example_trace [late_span; example_span "b" 2 "error"]) ∅ false)
    = (Ok (), p')
    /\ TraceViewer.elements p' !! "trace-metadata" = Some (MetadataGrid g)
    /\ ((exists s, s ∈ [late_span; example_span "b" 2 "error"] /\ has_error_status s) ->
        mg_status_class g = "error" /\ mg_status_label g = "Error")
    /\ ((~ exists s, s ∈ [late_span; example_span "b" 2 "error"] /\ has_error_status s) ->
        mg_status_class g = "success" /\ mg_status_label g = "Success").
Proof.
  apply (trace_status_from_spans _
           [("trace_id", VStr "tr_1"); ("name", VStr "demo");
            ("metadata", VObj [("total_duration_ms", VNum 7); ("span_count", VNum 2)]);
            ("spans", VArr [late_span; example_span "b" 2 "error"])]
           [late_span; example_span "b" 2 "error"]).
  - reflexivity.
  - reflexivity.
  - repeat constructor.
  - reflexivity.
Defined.

(** Outside the hypothesis on the header: a trace whose name has no text
    throws out of [renderTraceMetadata] before any status is written. *)
Lemma unprintable_name_blocks_header :
  exists e,
    TraceViewer.renderTraceMetadata
      (TraceViewer.Page (VObj [("name", unprintable); ("spans", VArr [])]) ∅ false)
    = (Throw e, TraceViewer.Page (VObj [("name", unprintable); ("spans", VArr [])]) ∅ false).
Proof. eexists. reflexivity. Qed.

(** ** The dashboard on an empty store *)

Lemma list_empty_store : Engine.Storage.list Engine.Storage.empty = [].
Proof. unfold Engine.Storage.list. simpl. by rewrite map_to_list_empty. Qed.

(** C3.  On the empty store [list_traces] yields the empty sequence, the
    list endpoint sends an empty array, and on an empty array
    [loadTraces] writes the "No traces yet" placeholder into
    [trace-list] and returns: nothing else in the page changes, so the
    four statistics keep their content and no trace item is rendered. *)
Theorem empty_store_shows_placeholder (doc : gmap string content) :
  Engine.Query.list_traces Engine.Storage.empty = ([], Engine.Storage.empty)
  /\ Engine.Query.http Engine.Query.ListTraces Engine.Storage.empty = Body (VArr [])
  /\ TraceList.loadTraces (Body (VArr [])) doc
     = (Ok (), <["trace-list" := NoTracesYet]> doc)
  /\ (TraceList.loadTraces (Body (VArr [])) doc).2 !! "total-traces" = doc !! "total-traces"
  /\ (TraceList.loadTraces (Body (VArr [])) doc).2 !! "success-rate" = doc !! "success-rate"
  /\ (TraceList.loadTraces (Body (VArr [])) doc).2 !! "avg-duration" = doc !! "avg-duration"
  /\ (TraceList.loadTraces (Body (VArr [])) doc).2 !! "total-spans" = doc !! "total-spans".
Proof.
  split; [|split; [|split]].
  - unfold Engine.Query.list_traces. by rewrite list_empty_store.
  - unfold Engine.Query.http, Engine.Query.serve, Engine.Query.list_traces.
    by rewrite list_empty_store.
  - reflexivity.
  - repeat split; simpl; by rewrite lookup_insert_ne.
Qed.

(** ** Two display states for three span statuses *)

Lemma renderable_span_inv h s :
  renderable_span s = true ->
  (exists q, toFixed (or_else (prop "duration_ms" s) (VNum 0)) = Ok q)
  /\ nullish (prop "llm_calls" s) = false
  /\ (exists b, gt_zero h (prop "length" (prop "llm_calls" s)) = Ok b)
  /\ printable (prop "span_id" s) = true
  /\ printable (prop "name" s) = true
  /\ printable (prop "span_type" s) = true
  /\ printable (prop "start_time" s) = true.
Proof.
  unfold renderable_span. intros H. split_andb.
  match goal with H : is_number _ = true |- _ =>
    apply toFixed_number in H as (q & _ & Hq) end.
  split; [eauto|]. split; [by apply negb_true_iff|].
  split; [by apply gt_zero_printable|]. done.
Qed.

(** What the two callbacks return for a span both views can draw. *)
Lemma renderSpanNode_run h s :
  nullish s = false -> renderable_span s = true ->
  exists q b,
    toFixed (or_else (prop "duration_ms" s) (VNum 0)) = Ok q
    /\ gt_zero h (prop "length" (prop "llm_calls" s)) = Ok b
    /\ TraceViewer.renderSpanNode h s
       = Ok {| sn_class := if strict_eq (prop "status" s) (VStr "error")
                           then "error" else "success";
               sn_indent := EmptyString;
               sn_onclick := prop "span_id" s;
               sn_icon := if strict_eq (prop "status" s) (VStr "error")
                          then RedCircle else GreenCircle;
               sn_name := prop "name" s;
               sn_type := prop "span_type" s;
               sn_duration := q;
               sn_llm_badge := if b then Some (prop "length" (prop "llm_calls" s))
                               else None |}.
Proof.
  intros Hs Hr.
  destruct (renderable_span_inv h s Hr)
    as ([q Hq] & Hcalls & [b Hb] & Hid & Hname & Hty & Hstart).
  exists q, b. split; [done|]. split; [done|].
  unfold TraceViewer.renderSpanNode.
  rewrite !(get_not_nullish _ _ Hs). cbn [mbind outcome_bind]. convert.
  rewrite Hq. cbn [mbind outcome_bind].
  rewrite (get_not_nullish _ _ Hcalls). cbn [mbind outcome_bind].
  rewrite Hb. reflexivity.
Qed.

Lemma renderSpanRow_run s :
  nullish s = false -> renderable_span s = true ->
  exists q,
    toFixed (or_else (prop "duration_ms" s) (VNum 0)) = Ok q
    /\ TraceViewer.renderSpanRow s
       = Ok {| sr_class := if strict_eq (prop "status" s) (VStr "error")
                           then "error" else "success";
               sr_onclick := prop "span_id" s;
               sr_name := prop "name" s;
               sr_type := prop "span_type" s;
               sr_duration := q;
               sr_start := prop "start_time" s |}.
Proof.
  intros Hs Hr.
  destruct (renderable_span_inv numeric_host s Hr)
    as ([q Hq] & Hcalls & _ & Hid & Hname & Hty & Hstart).
  exists q. split; [done|].
  unfold TraceViewer.renderSpanRow.
  rewrite !(get_not_nullish _ _ Hs). cbn [mbind outcome_bind]. convert.
  rewrite Hq. cbn [mbind outcome_bind]. convert. reflexivity.
Qed.

Lemma renderable_span_set_status v fields :
  renderable_span (VObj (set_field "status" v fields)) = renderable_span (VObj fields).
Proof. unfold renderable_span. rewrite !prop_obj, !lookup_set_field. reflexivity. Qed.

(** C9.  The two views know two display states.  A span whose status is
    exactly "error" is drawn with the class "error" in both views and
    the red icon in the graph.  A span with any other status is drawn
    with the class "success" in both views and the green icon in the
    graph, and replacing its status by any other value that is not
    "error" (so "running" for "success") leaves both renderings
    identical: a running span cannot be told from a successful one. *)
Theorem span_status_has_two_display_states
    (h : host) (fields : list (string * value)) :
  renderable_span (VObj fields) = true ->
  exists n r,
    TraceViewer.renderSpanNode h (VObj fields) = Ok n
    /\ TraceViewer.renderSpanRow (VObj fields) = Ok r
    /\ (lookup_field "status" fields = VStr "error" ->
        sn_class n = "error" /\ sn_icon n = RedCircle /\ sr_class r = "error")
    /\ (lookup_field "status" fields <> VStr "error" ->
        sn_class n = "success" /\ sn_icon n = GreenCircle /\ sr_class r = "success"
        /\ forall v, v <> VStr "error" ->
             TraceViewer.renderSpanNode h (VObj (set_field "status" v fields)) = Ok n
             /\ TraceViewer.renderSpanRow (VObj (set_field "status" v fields)) = Ok r).
Proof.
  intros Hr.
  destruct (renderSpanNode_run h (VObj fields) eq_refl Hr) as (q & b & Hq & Hb & Hn).
  destruct (renderSpanRow_run (VObj fields) eq_refl Hr) as (q' & Hq' & Hrow).
  rewrite Hq in Hq'. injection Hq' as <-.
  eexists _, _. split; [exact Hn|]. split; [exact Hrow|]. simpl.
  rewrite !prop_obj. split.
  - intros ->. done.
  - intros Hne.
    assert (strict_eq (lookup_field "status" fields) (VStr "error") = false) as ->.
    { apply not_true_is_false. by rewrite strict_eq_error. }
    split; [done|]. split; [done|]. split; [done|]. intros v Hv.
    assert (strict_eq v (VStr "error") = false) as Hv'.
    { apply not_true_is_false. by rewrite strict_eq_error. }
    pose proof (renderable_span_set_status v fields) as Hr'. rewrite Hr in Hr'.
    destruct (renderSpanNode_run h (VObj (set_field "status" v fields)) eq_refl Hr')
      as (q2 & b2 & Hq2 & Hb2 & ->).
    destruct (renderSpanRow_run (VObj (set_field "status" v fields)) eq_refl Hr')
      as (q3 & Hq3 & ->).
    rewrite !prop_obj, !lookup_set_field in *. simpl in *.
    rewrite Hq in Hq2, Hq3. injection Hq2 as <-. injection Hq3 as <-.
    rewrite Hb in Hb2. injection Hb2 as <-.
    by rewrite Hv'.
Qed.

Lemma span_status_has_two_display_states_witness :
  exists n r,
    TraceViewer.renderSpanNode numeric_host (example_span "a" 5 "running") = Ok n
    /\ TraceViewer.renderSpanRow (example_span "a" 5 "running") = Ok r
    /\ (VStr "running" = VStr "error" ->
        sn_class n = "error" /\ sn_icon n = RedCircle /\ sr_class r = "error")
    /\ (VStr "running" <> VStr "error" ->
        sn_class n = "success" /\ sn_icon n = GreenCircle /\ sr_class r = "success"
        /\ forall v, v <> VStr "error" ->
             TraceViewer.renderSpanNode numeric_host
               (VObj (set_field "status" v
                        [("span_id", VStr "a"); ("name", VStr "step");
                         ("span_type", VStr "tool_call"); ("start_time", VNum 5);
                         ("duration_ms", VNum 3); ("status", VStr "running");
                         ("llm_calls", VArr [])])) = Ok n
             /\ TraceViewer.renderSpanRow
                  (VObj (set_field "status" v
                           [("span_id", VStr "a"); ("name", VStr "step");
                            ("span_type", VStr "tool_call"); ("start_time", VNum 5);
                            ("duration_ms", VNum 3); ("status", VStr "running");
                            ("llm_calls", VArr [])])) = Ok r).
Proof.
  apply (span_status_has_two_display_states numeric_host
           [("span_id", VStr "a"); ("name", VStr "step"); ("span_type", VStr "tool_call");
            ("start_time", VNum 5); ("duration_ms", VNum 3);
            ("status", VStr "running"); ("llm_calls", VArr [])]).
  reflexivity.
Defined.

(** The three statuses of the data model on one span: "running" and
    "success" give the same node and the same row, "error" gives
    another node and another row. *)
Lemma three_statuses_two_renderings (h : host) :
  TraceViewer.renderSpanNode h (example_span "a" 5 "running")
  = TraceViewer.renderSpanNode h (example_span "a" 5 "success")
  /\ TraceViewer.renderSpanRow (example_span "a" 5 "running")
     = TraceViewer.renderSpanRow (example_span "a" 5 "success")
  /\ TraceViewer.renderSpanNode h (example_span "a" 5 "success")
     = Ok (SpanNode "success" EmptyString (VStr "a") GreenCircle (VStr "step")
             (VStr "tool_call") 3 None)
  /\ TraceViewer.renderSpanNode h (example_span "a" 5 "error")
     = Ok (SpanNode "error" EmptyString (VStr "a") RedCircle (VStr "step")
             (VStr "tool_call") 3 None)
  /\ TraceViewer.renderSpanRow (example_span "a" 5 "success")
     = Ok (SpanRow "success" (VStr "a") (VStr "step") (VStr "tool_call") 3 (VNum 5))
  /\ TraceViewer.renderSpanRow (example_span "a" 5 "error")
     = Ok (SpanRow "error" (VStr "a") (VStr "step") (VStr "tool_call") 3 (VNum 5)).
Proof. repeat split. Qed.

(** ** The span detail modal *)

Lemma strict_eq_string v s : strict_eq v (VStr s) = true <-> v = VStr s.
Proof.
  destruct v; simpl; try (split; [done|congruence]).
  split; [intros ->%String.eqb_eq; done | intros [= ->]; apply String.eqb_refl].
Qed.

Lemma array_find_none (f : value -> outcome bool) items :
  Forall (fun s => f s = Ok false) items -> array_find f items = Ok None.
Proof. induction 1 as [|s items Hs _ IH]; simpl; [done|]. by rewrite Hs. Qed.

Lemma array_find_some (f : value -> outcome bool) items s :
  array_find f items = Ok (Some s) -> s ∈ items /\ f s = Ok true.
Proof.
  induction items as [|x items IH]; simpl; [done|].
  destruct (f x) as [[]|e] eqn:Hx; simpl; try done.
  - intros [= <-]. split; [left | done].
  - intros [Hin Hs]%IH. split; [by right | done].
Qed.

(** C10.  When no span of the loaded trace has the given identifier,
    [showSpanDetail] returns and the page is exactly as before: the
    detail content, the current trace and the modal flag are those of
    the start, so the modal is not opened. *)
Theorem unknown_span_id_has_no_effect
    (h : host) (spanId : string) (p : TraceViewer.page)
    (fields : list (string * value)) (items : list value) :
  TraceViewer.currentTrace p = VObj fields ->
  lookup_field "spans" fields = VArr items ->
  Forall (fun s => nullish s = false
                   /\ strict_eq (prop "span_id" s) (VStr spanId) = false) items ->
  TraceViewer.showSpanDetail h spanId p = (Ok (), p).
Proof.
  intros Hct Hspans Hnone.
  unfold TraceViewer.showSpanDetail, TraceViewer.read_currentTrace, Js.bind.
  rewrite Hct. simpl. rewrite Hspans. simpl.
  rewrite array_find_none; [done|].
  eapply Forall_impl; [exact Hnone|]. intros s [Hs Hne]. simpl in *.
  rewrite (get_not_nullish _ _ Hs). simpl. by rewrite Hne.
Qed.

Lemma unknown_span_id_has_no_effect_witness :
  TraceViewer.showSpanDetail numeric_host "missing"
    (TraceViewer.Page (example_trace [late_span; early_span]) ∅ false)
  = (Ok (), TraceViewer.Page (example_trace [late_span; early_span]) ∅ false).
Proof.
  apply (unknown_span_id_has_no_effect numeric_host "missing" _
           [("trace_id", VStr "tr_1"); ("name", VStr "demo");
            ("metadata", VObj [("total_duration_ms", VNum 7); ("span_count", VNum 2)]);
            ("spans", VArr [late_span; early_span])]
           [late_span; early_span]).
  - reflexivity.
  - reflexivity.
  - repeat constructor.
Defined.

(** The converse reading: whenever a call changes the page at all, in
    particular when it opens the modal, a span of the current trace
    carries the identifier. *)
Lemma span_detail_changes_only_on_match
    (h : host) (spanId : string) (p p' : TraceViewer.page) (o : outcome ()) :
  TraceViewer.showSpanDetail h spanId p = (o, p') ->
  p' <> p ->
  exists items s,
    prop "spans" (TraceViewer.currentTrace p) = VArr items
    /\ s ∈ items /\ prop "span_id" s = VStr spanId.
Proof.
  unfold TraceViewer.showSpanDetail, TraceViewer.read_currentTrace, Js.bind. simpl.
  unfold prop at 1.
  destruct (get (TraceViewer.currentTrace p) "spans") as [spans|e] eqn:Hspans; simpl;
    [|by intros [= _ <-]].
  destruct spans as [| | | | |items|]; simpl; try by intros [= _ <-].
  destruct (array_find _ items) as [[s|]|e] eqn:Hfind; simpl; try by intros [= _ <-].
  apply array_find_some in Hfind as [Hin Hs].
  intros _ _. exists items, s. split; [done|]. split; [done|].
  unfold prop. destruct (get s "span_id"); simpl in Hs; [|done].
  apply strict_eq_string. congruence.
Qed.

(** ** The order of the spans in the graph and in the list *)

Section StartOrder.
Variable h : host.

#[local] Instance ms_le_transitive : Transitive (ms_le h).
Proof.
  intros a b c (x & y & Ha & Hb & Hxy) (y' & z & Hb' & Hc & Hyz).
  exists x, z. repeat split; [done..|]. rewrite Hb in Hb'. injection Hb' as <-. lia.
Qed.

(** The comparator on two spans whose [start_time] converts: it returns
    the difference of the two time values, NaN when a date is invalid. *)
Lemma by_start_time_nonnull a b :
  nullish a = false -> nullish b = false ->
  printable (prop "start_time" a) = true -> printable (prop "start_time" b) = true ->
  TraceViewer.by_start_time h a b = Ok (Date_minus (start_ms h a) (start_ms h b)).
Proof.
  intros Ha Hb Hpa Hpb. unfold TraceViewer.by_start_time.
  rewrite (get_not_nullish _ _ Ha), (get_not_nullish _ _ Hb). cbn [mbind outcome_bind].
  rewrite (Date_value_start_ms h a Hpa). cbn [mbind outcome_bind].
  by rewrite (Date_value_start_ms h b Hpb).
Qed.

Lemma by_start_time_dated a b x y :
  nullish a = false -> nullish b = false ->
  start_ms h a = Some x -> start_ms h b = Some y ->
  TraceViewer.by_start_time h a b = Ok (Some (x - y)).
Proof.
  intros Ha Hb Hx Hy.
  rewrite by_start_time_nonnull; [|done..|by eapply start_ms_printable
                                         |by eapply start_ms_printable].
  by rewrite Hx, Hy.
Qed.

Lemma sort_insert_dated x l :
  dated h x -> Forall (dated h) l -> StronglySorted (ms_le h) l ->
  exists r,
    sort_insert (TraceViewer.by_start_time h) x l = Ok r
    /\ r ≡ₚ x :: l
    /\ StronglySorted (ms_le h) r
    /\ forall t, filter (fun s => start_ms h s = Some t) r
                 = filter (fun s => start_ms h s = Some t) (x :: l).
Proof.
  intros [Hx [tx Htx]] Hl Hsorted.
  induction l as [|y rest IH]; cbn [sort_insert].
  - exists [x]. split; [done|]. split; [done|]. split; [|done].
    apply SSorted_cons; constructor.
  - apply Forall_cons in Hl as [[Hy [ty Hty]] Hrest].
    apply StronglySorted_inv in Hsorted as [Hsrest Hyrest].
    rewrite (by_start_time_dated _ _ _ _ Hx Hy Htx Hty). simpl.
    destruct (Z.leb_spec (tx - ty) 0) as [Hle|Hgt].
    + exists (x :: y :: rest). split; [done|]. split; [done|]. split; [|done].
      assert (ms_le h x y) as Hxy by (exists tx, ty; repeat split; [done..|lia]).
      apply SSorted_cons; [by apply SSorted_cons|].
      apply Forall_cons. split; [done|].
      eapply Forall_impl; [exact Hyrest|]. intros z Hyz. by etrans.
    + destruct (IH Hrest Hsrest) as (r & -> & Hperm & Hr & Hfilter). simpl.
      exists (y :: r). split; [done|]. split; [|split].
      * rewrite Hperm. apply Permutation_swap.
      * apply SSorted_cons; [done|]. rewrite Hperm. apply Forall_cons. split; [|done].
        exists ty, tx. repeat split; [done..|lia].
      * intros t. rewrite filter_cons, Hfilter, !filter_cons.
        repeat case_decide; try done. simplify_eq. lia.
Qed.

Lemma array_sort_dated items :
  Forall (dated h) items ->
  exists sorted,
    array_sort (TraceViewer.by_start_time h) items = Ok sorted
    /\ sorted ≡ₚ items
    /\ StronglySorted (ms_le h) sorted
    /\ forall t, filter (fun s => start_ms h s = Some t) sorted
                 = filter (fun s => start_ms h s = Some t) items.
Proof.
  induction 1 as [|x items Hx Hitems IH]; cbn [array_sort].
  - exists []. split; [done|]. split; [done|]. split; [constructor|done].
  - destruct IH as (s & -> & Hperm & Hs & Hfilter). cbn [mbind outcome_bind].
    destruct (sort_insert_dated x s Hx) as (r & Hr & Hperm' & Hsorted & Hfilter');
      [by rewrite Hperm | done |].
    exists r. split; [done|]. split; [by rewrite Hperm', Hperm|]. split; [done|].
    intros t. by rewrite Hfilter', !filter_cons, Hfilter.
Qed.

(** Two spans dated to the same millisecond are left in the order of the
    record, whatever the text of their [start_time]. *)
Lemma same_millisecond_keeps_record_order a b t :
  nullish a = false -> nullish b = false ->
  start_ms h a = Some t -> start_ms h b = Some t ->
  array_sort (TraceViewer.by_start_time h) [a; b] = Ok [a; b].
Proof.
  intros Ha Hb Hta Htb. cbn [array_sort sort_insert mbind outcome_bind].
  rewrite (by_start_time_dated _ _ _ _ Ha Hb Hta Htb). simpl.
  by rewrite Z.sub_diag.
Qed.

(** The order is determined: two arrangements of dated spans that are
    both sorted by millisecond and keep every same-millisecond group in
    the same order are the same list.  So every stable sort, not only
    the insertion sort above, draws the spans in this order. *)
Lemma stable_sorted_unique l1 l2 :
  Forall (dated h) l1 -> Forall (dated h) l2 ->
  StronglySorted (ms_le h) l1 -> StronglySorted (ms_le h) l2 ->
  (forall t, filter (fun s => start_ms h s = Some t) l1
             = filter (fun s => start_ms h s = Some t) l2) ->
  l1 = l2.
Proof.
  intros Hd1. revert l2.
  induction l1 as [|x l1 IH]; intros l2 Hd2 Hs1 Hs2 Hf.
  - destruct l2 as [|y l2]; [done|].
    apply Forall_cons in Hd2 as [[_ [ty Hty]] _].
    specialize (Hf ty). rewrite filter_cons_True in Hf by done. done.
  - apply Forall_cons in Hd1 as [[Hx [tx Htx]] Hd1].
    destruct l2 as [|y l2].
    { specialize (Hf tx). rewrite filter_cons_True in Hf by done. done. }
    apply Forall_cons in Hd2 as [[Hy [ty Hty]] Hd2].
    apply StronglySorted_inv in Hs1 as [Hs1 Hx1].
    apply StronglySorted_inv in Hs2 as [Hs2 Hy2].
    assert (forall z l, Forall (ms_le h z) l -> forall w tz tw,
              start_ms h z = Some tz -> start_ms h w = Some tw ->
              w ∈ filter (fun s => start_ms h s = Some tw) l -> tz <= tw) as Hhead.
    { intros z l Hz w tz tw Hz' Hw [_ Hin]%list_elem_of_filter.
      rewrite Forall_forall in Hz. destruct (Hz _ Hin) as (a & b & Ha & Hb & Hab).
      simplify_eq. done. }
    assert (tx = ty) as ->.
    { apply Z.le_antisymm.
      - pose proof (Hf ty) as Hfy. rewrite (filter_cons_True _ y) in Hfy by done.
        destruct (decide (tx = ty)) as [->|Hne]; [done|].
        rewrite filter_cons_False in Hfy by congruence.
        apply (Hhead x l1 Hx1 y tx ty Htx Hty). rewrite Hfy. left.
      - pose proof (Hf tx) as Hfx. rewrite (filter_cons_True _ x) in Hfx by done.
        destruct (decide (ty = tx)) as [->|Hne]; [done|].
        rewrite (filter_cons_False _ y) in Hfx by congruence.
        apply (Hhead y l2 Hy2 x ty tx Hty Htx). rewrite <- Hfx. left. }
    pose proof (Hf ty) as Hft. rewrite !filter_cons_True in Hft by done.
    injection Hft as -> Hft. f_equal.
    apply IH; [done..|]. intros t. specialize (Hf t).
    rewrite !filter_cons in Hf. case_decide; [|done]. by simplify_eq.
Qed.

End StartOrder.

Lemma array_map_ok {B} (f : value -> outcome B) items :
  Forall (fun s => exists y, f s = Ok y) items ->
  exists ys, array_map f items = Ok ys /\ Forall2 (fun s y => f s = Ok y) items ys.
Proof.
  induction 1 as [|x items [y Hy] _ (ys & IH & Hall)]; simpl.
  - by exists [].
  - rewrite Hy, IH. simpl. exists (y :: ys). split; [done|]. by constructor.
Qed.

Lemma array_filter_ok (f : value -> outcome bool) items :
  Forall (fun s => exists y, f s = Ok y) items ->
  exists ys, array_filter f items = Ok ys.
Proof.
  induction 1 as [|x items [y Hy] _ (ys & IH)]; simpl; [by eexists|].
  rewrite Hy, IH. simpl. by eexists.
Qed.

Lemma renderSpanNode_ok h s :
  nullish s = false -> renderable_span s = true ->
  exists n, TraceViewer.renderSpanNode h s = Ok n.
Proof.
  intros Hs Hr. destruct (renderSpanNode_run h s Hs Hr) as (q & b & _ & _ & ->). eauto.
Qed.

Lemma renderSpanRow_ok s :
  nullish s = false -> renderable_span s = true ->
  exists r, TraceViewer.renderSpanRow s = Ok r.
Proof.
  intros Hs Hr. destruct (renderSpanRow_run s Hs Hr) as (q & _ & ->). eauto.
Qed.

(** What [renderExecutionGraph] and [renderSpanList] do once the sort of
    the spans has returned. *)
Lemma renderExecutionGraph_run h (p : TraceViewer.page) fields items sorted :
  TraceViewer.currentTrace p = VObj fields ->
  lookup_field "spans" fields = VArr items ->
  Forall (fun s => nullish s = false) items ->
  array_sort (TraceViewer.by_start_time h) items = Ok sorted ->
  TraceViewer.renderExecutionGraph h p
  = match array_map (TraceViewer.renderSpanNode h) sorted with
    | Ok nodes =>
        (Ok (),
         TraceViewer.Page (VObj (set_field "spans" (VArr sorted) fields))
           (<["execution-graph" := SpanNodes nodes]> (TraceViewer.elements p))
           (TraceViewer.modal_active p))
    | Throw e =>
        (Throw e,
         TraceViewer.Page (VObj (set_field "spans" (VArr sorted) fields))
           (TraceViewer.elements p) (TraceViewer.modal_active p))
    end.
Proof.
  intros Hct Hspans Hobj Hsort.
  destruct (array_map_ok (fun span => get span "span_id") items) as (ids & Hids & _).
  { eapply Forall_impl; [exact Hobj|]. intros s Hnn. rewrite (get_not_nullish _ _ Hnn). eauto. }
  destruct (array_filter_ok
              (fun s => p ← get s "parent_span_id"; Ok (negb (truthy p))) items)
    as (roots & Hroots).
  { eapply Forall_impl; [exact Hobj|]. intros s Hnn.
    rewrite (get_not_nullish _ _ Hnn). simpl. eauto. }
  unfold TraceViewer.renderExecutionGraph, TraceViewer.sort_spans,
    TraceViewer.read_currentTrace, Js.bind.
  rewrite Hct. simpl. rewrite Hspans. simpl.
  rewrite Hids, Hroots. simpl. rewrite Hct. simpl. rewrite Hspans. simpl.
  rewrite Hsort. simpl. by destruct (array_map _ sorted).
Qed.

Lemma renderSpanList_run h (p : TraceViewer.page) fields items sorted :
  TraceViewer.currentTrace p = VObj fields ->
  lookup_field "spans" fields = VArr items ->
  array_sort (TraceViewer.by_start_time h) items = Ok sorted ->
  TraceViewer.renderSpanList h p
  = match array_map TraceViewer.renderSpanRow sorted with
    | Ok rows =>
        (Ok (),
         TraceViewer.Page (VObj (set_field "spans" (VArr sorted) fields))
           (<["span-list" := SpanRows rows]> (TraceViewer.elements p))
           (TraceViewer.modal_active p))
    | Throw e =>
        (Throw e,
         TraceViewer.Page (VObj (set_field "spans" (VArr sorted) fields))
           (TraceViewer.elements p) (TraceViewer.modal_active p))
    end.
Proof.
  intros Hct Hspans Hsort.
  unfold TraceViewer.renderSpanList, TraceViewer.sort_spans,
    TraceViewer.read_currentTrace, Js.bind.
  rewrite Hct. simpl. rewrite Hspans. simpl.
  rewrite Hsort. simpl. by destruct (array_map _ sorted).
Qed.

(** C4, as amended.  When every span of the trace has a [start_time]
    that yields a valid date (and can be drawn), the execution graph and
    the span list each show exactly the spans of the trace, in
    non-decreasing order of the whole-millisecond time value of that
    date; spans with the same time value stay in the order of the
    record. *)
Theorem spans_render_in_start_order
    (h : host) (p : TraceViewer.page)
    (fields : list (string * value)) (items : list value) :
  TraceViewer.currentTrace p = VObj fields ->
  lookup_field "spans" fields = VArr items ->
  Forall (fun s => dated h s /\ renderable_span s = true) items ->
  exists sorted nodes rows p1 p2,
    TraceViewer.renderExecutionGraph h p = (Ok (), p1)
    /\ TraceViewer.elements p1 !! "execution-graph" = Some (SpanNodes nodes)
    /\ TraceViewer.renderSpanList h p = (Ok (), p2)
    /\ TraceViewer.elements p2 !! "span-list" = Some (SpanRows rows)
    /\ Forall2 (fun s n => TraceViewer.renderSpanNode h s = Ok n) sorted nodes
    /\ Forall2 (fun s r => TraceViewer.renderSpanRow s = Ok r) sorted rows
    /\ sorted ≡ₚ items
    /\ StronglySorted (ms_le h) sorted
    /\ forall t, filter (fun s => start_ms h s = Some t) sorted
                 = filter (fun s => start_ms h s = Some t) items.
Proof.
  intros Hct Hspans Hitems.
  apply Forall_and in Hitems as [Hdated Hrender].
  assert (Forall (fun s => nullish s = false) items) as Hobj
    by (eapply Forall_impl; [exact Hdated|]; by intros s [? _]).
  destruct (array_sort_dated h items Hdated) as (sorted & Hsort & Hperm & Hsorted & Hstable).
  assert (Forall (fun s => nullish s = false /\ renderable_span s = true) sorted) as Hs.
  { rewrite Hperm. apply Forall_and. by split. }
  destruct (array_map_ok (TraceViewer.renderSpanNode h) sorted) as (nodes & Hnodes & Hn2).
  { eapply Forall_impl; [exact Hs|]. intros s [? ?]. by apply renderSpanNode_ok. }
  destruct (array_map_ok TraceViewer.renderSpanRow sorted) as (rows & Hrows & Hr2).
  { eapply Forall_impl; [exact Hs|]. intros s [? ?]. by apply renderSpanRow_ok. }
  exists sorted, nodes, rows. eexists _, _.
  rewrite (renderExecutionGraph_run h p fields items sorted Hct Hspans Hobj Hsort), Hnodes.
  rewrite (renderSpanList_run h p fields items sorted Hct Hspans Hsort), Hrows.
  split; [reflexivity|]. split; [apply lookup_insert_eq|].
  split; [reflexivity|]. split; [apply lookup_insert_eq|]. done.
Qed.

Lemma spans_render_in_start_order_witness :
  exists sorted nodes rows p1 p2,
    TraceViewer.renderExecutionGraph numeric_host
      (TraceViewer.Page
         (example_trace [example_span "a" 9 "success"; example_span "b" 4 "error"]) ∅ false)
    = (Ok (), p1)
    /\ TraceViewer.elements p1 !! "execution-graph" = Some (SpanNodes nodes)
    /\ TraceViewer.renderSpanList numeric_host
         (TraceViewer.Page
            (example_trace [example_span "a" 9 "success"; example_span "b" 4 "error"]) ∅ false)
       = (Ok (), p2)
    /\ TraceViewer.elements p2 !! "span-list" = Some (SpanRows rows)
    /\ Forall2 (fun s n => TraceViewer.renderSpanNode numeric_host s = Ok n) sorted nodes
    /\ Forall2 (fun s r => TraceViewer.renderSpanRow s = Ok r) sorted rows
    /\ sorted ≡ₚ [example_span "a" 9 "success"; example_span "b" 4 "error"]
    /\ StronglySorted (ms_le numeric_host) sorted
    /\ forall t, filter (fun s => start_ms numeric_host s = Some t) sorted
                 = filter (fun s => start_ms numeric_host s = Some t)
                     [example_span "a" 9 "success"; example_span "b" 4 "error"].
Proof.
  apply (spans_render_in_start_order numeric_host _
           [("trace_id", VStr "tr_1"); ("name", VStr "demo");
            ("metadata", VObj [("total_duration_ms", VNum 7); ("span_count", VNum 2)]);
            ("spans", VArr [example_span "a" 9 "success"; example_span "b" 4 "error"])]
           [example_span "a" 9 "success"; example_span "b" 4 "error"]).
  - reflexivity.
  - reflexivity.
  - repeat constructor; by eexists.
Defined.

(** C4, as stated, fails.  The span "early" starts at 1.2 ms and the span
    "late" at 1.5 ms; both dates truncate to the time value 1, the
    comparator returns 0 and the stable sort keeps the record's order:
    with "late" first in the record, both views draw "late" before
    "early". *)
Lemma later_span_drawn_first :
  starts_before early_span late_span
  /\ (TraceViewer.renderExecutionGraph numeric_host reversed_page).1 = Ok ()
  /\ rendered_ids
       (TraceViewer.elements (TraceViewer.renderExecutionGraph numeric_host reversed_page).2
          !! "execution-graph")
     = [VStr "late"; VStr "early"]
  /\ (TraceViewer.renderSpanList numeric_host reversed_page).1 = Ok ()
  /\ rendered_ids
       (TraceViewer.elements (TraceViewer.renderSpanList numeric_host reversed_page).2
          !! "span-list")
     = [VStr "late"; VStr "early"].
Proof. repeat split; vm_compute; reflexivity. Qed.

(** On numeric timestamps the host is never consulted: the pages above
    are the same on every host. *)
Lemma reversed_page_any_host (h : host) :
  TraceViewer.renderExecutionGraph h reversed_page
  = TraceViewer.renderExecutionGraph numeric_host reversed_page
  /\ TraceViewer.renderSpanList h reversed_page
     = TraceViewer.renderSpanList numeric_host reversed_page.
Proof. split; reflexivity. Qed.

(** ** Storage: what is saved is what is loaded *)

Lemma decode_encode_llm_call c :
  Engine.decode_llm_call (Engine.encode_llm_call c) = Some c.
Proof. destruct c as [m p r ti to l [c|]]; reflexivity. Qed.

Lemma decode_encode_status st :
  Engine.decode_status (Engine.encode_status st) = Some st.
Proof. by destruct st. Qed.

Lemma decode_encode_span s : Engine.decode_span (Engine.encode_span s) = Some s.
Proof.
  destruct s as [sid parent tid name ty start fin dur st inp out err errty calls md].
  unfold Engine.decode_span, Engine.encode_span, Engine.decode_list, Engine.field.
  destruct parent, err, errty; cbn -[mapM Engine.decode_status Engine.encode_status];
    rewrite decode_encode_status;
    rewrite (mapM_fmap_Some _ _ _ decode_encode_llm_call);
    by destruct fin, dur.
Qed.

Lemma decode_encode_trace tr : Engine.decode_trace (Engine.encode_trace tr) = Some tr.
Proof.
  destruct tr as [tid name spans agent fw].
  unfold Engine.decode_trace, Engine.encode_trace, Engine.decode_list, Engine.field.
  destruct name, agent, fw; cbn -[mapM];
    by rewrite (mapM_fmap_Some _ _ _ decode_encode_span).
Qed.

(** C5.  [save] followed by [load] of the saved trace's identifier
    returns the saved trace itself, whatever the store held before:
    writing the record in the layout of the external interface and
    reading it back loses no field. *)
Theorem save_load_round_trip (tr : Engine.Trace.t) (s : Engine.Storage.store) :
  Engine.Storage.load (Engine.Trace.trace_id tr) (Engine.Storage.save tr s) = Some tr.
Proof.
  unfold Engine.Storage.load, Engine.Storage.save. simpl.
  rewrite lookup_insert_eq. simpl. apply decode_encode_trace.
Qed.

(** Saving a trace leaves every other identifier as it was. *)
Lemma save_load_other (tr : Engine.Trace.t) (s : Engine.Storage.store) (id : string) :
  id <> Engine.Trace.trace_id tr ->
  Engine.Storage.load id (Engine.Storage.save tr s) = Engine.Storage.load id s.
Proof.
  intros Hne. unfold Engine.Storage.load, Engine.Storage.save. simpl.
  by rewrite lookup_insert_ne.
Qed.

(** ** Tracer: the timing of closed spans *)

Section TracerClock.
Import Engine Engine.Tracer.











End TracerClock.

(** The example run stores one trace of two closed spans, with the
    durations 7 ms and 15 ms. *)
Example example_run_stored :
  (fun tr => (Engine.Span.span_id <$> Engine.Trace.spans tr,
              Engine.Span.duration_ms <$> Engine.Trace.spans tr))
  <$> Engine.Storage.load "trace-0"
        (Engine.Tracer.storage
           (Engine.Tracer.run example_run (Engine.Tracer.init Engine.Storage.empty)))
  = Some (["span-1"; "span-0"], [Some (19 - 12)%Q; Some (25 - 10)%Q]).
Proof. vm_compute. reflexivity. Qed.

(** A wall clock set back from 10 to 5 while the span is open: the
    monotonic source issues 10 again, and the span is stored with the
    end 10 and the duration 10 - 10. *)
Example clock_set_back_run_stored :
  (fun tr => (Engine.Span.start_time <$> Engine.Trace.spans tr,
              Engine.Span.end_time <$> Engine.Trace.spans tr,
              Engine.Span.duration_ms <$> Engine.Trace.spans tr))
  <$> Engine.Storage.load "trace-0"
        (Engine.Tracer.storage
           (Engine.Tracer.run clock_set_back_run (Engine.Tracer.init Engine.Storage.empty)))
  = Some ([10%Q], [Some 10%Q], [Some (10 - 10)%Q]).
Proof. vm_compute. reflexivity. Qed.

(** * Further properties of the two scripts *)

(** ** Running arrays through callbacks *)

Lemma array_map_pure {B} (f : value -> outcome B) (g : value -> B) items :
  Forall (fun x => f x = Ok (g x)) items -> array_map f items = Ok (g <$> items).
Proof. induction 1 as [|x items Hx _ IH]; simpl; [done|]. by rewrite Hx, IH. Qed.

Lemma array_filter_pure (f : value -> outcome bool) (g : value -> bool) items :
  Forall (fun x => f x = Ok (g x)) items ->
  array_filter f items = Ok (List.filter g items).
Proof.
  induction 1 as [|x items Hx _ IH]; simpl; [done|].
  rewrite Hx, IH. simpl. by destruct (g x).
Qed.

Lemma array_map_length {B} (f : value -> outcome B) items ys :
  array_map f items = Ok ys -> length ys = length items.
Proof.
  revert ys. induction items as [|x items IH]; simpl; intros ys.
  - by intros [= <-].
  - destruct (f x) as [y|e]; simpl; [|done].
    destruct (array_map f items) as [ys'|e]; simpl; [|done].
    intros [= <-]. simpl. f_equal. by apply IH.
Qed.

Lemma array_filter_length (f : value -> outcome bool) items ys :
  array_filter f items = Ok ys -> (length ys <= length items)%nat.
Proof.
  revert ys. induction items as [|x items IH]; simpl; intros ys.
  - intros [= <-]. done.
  - destruct (f x) as [b|e]; simpl; [|done].
    destruct (array_filter f items) as [ys'|e]; simpl; [|done].
    specialize (IH _ eq_refl). intros [= <-]. destruct b; simpl; lia.
Qed.

Lemma array_map_throws {B} (f : value -> outcome B) items :
  Exists (fun x => exists e, f x = Throw e) items ->
  exists e, array_map f items = Throw e.
Proof.
  induction 1 as [x items [e He]|x items _ [e IH]]; simpl.
  - rewrite He. simpl. eauto.
  - destruct (f x) as [y|e']; simpl; [|eauto]. rewrite IH. simpl. eauto.
Qed.

Lemma num_of_nat_zero n : strict_eq (num_of_nat n) (VNum 0) = bool_decide (n = 0%nat).
Proof.
  destruct n; [done|]. by rewrite bool_decide_eq_false_2.
Qed.

(** Sorting only rearranges, whatever the comparator answers. *)
Lemma sort_insert_perm cmp x l r : sort_insert cmp x l = Ok r -> r ≡ₚ x :: l.
Proof.
  revert r. induction l as [|y l IH]; intros r; cbn [sort_insert].
  - by intros [= <-].
  - destruct (cmp x y) as [c|e]; cbn [mbind outcome_bind]; [|done].
    destruct (_ <=? 0); [by intros [= <-]|].
    destruct (sort_insert cmp x l) as [r'|e]; cbn [mbind outcome_bind]; [|done].
    intros [= <-]. rewrite (IH r' eq_refl). apply Permutation_swap.
Qed.

Lemma array_sort_perm cmp items sorted :
  array_sort cmp items = Ok sorted -> sorted ≡ₚ items.
Proof.
  revert sorted. induction items as [|x items IH]; intros sorted; cbn [array_sort].
  - by intros [= <-].
  - destruct (array_sort cmp items) as [s|e]; cbn [mbind outcome_bind]; [|done].
    intros Hr%sort_insert_perm. by rewrite Hr, (IH s eq_refl).
Qed.

(** ** The dashboard script as a whole *)

Ltac in_list :=
  unfold viewer_ids, stat_ids;
  repeat first [apply list_elem_of_here | apply list_elem_of_further].

Ltac solve_frame :=
  let id := fresh "id" in
  let H := fresh "H" in
  intros id H; simpl;
  repeat (rewrite lookup_insert_ne; [|intros <-; apply H; in_list]);
  reflexivity.

(** X1.  [loadTraces] returns normally on every response.  Afterwards
    [trace-list] holds the placeholder, the rendered items or an error
    message that starts "Error loading traces: ", and no element other
    than [trace-list] and the four statistics has changed. *)
Theorem loadTraces_always_returns (r : response) (doc : gmap string content) :
  exists doc',
    TraceList.loadTraces r doc = (Ok (), doc')
    /\ (doc' !! "trace-list" = Some NoTracesYet
        \/ (exists items, doc' !! "trace-list" = Some (TraceItems items))
        \/ (exists detail,
              doc' !! "trace-list" = Some (ErrorMessage "Error loading traces: " detail)))
    /\ unchanged_outside ("trace-list" :: stat_ids) doc doc'.
Proof.
  unfold TraceList.loadTraces, try_catch, Js.bind, TraceList.set_content, eval.
  destruct r as [e|e|traces]; simpl.
  1,2: eexists; split; [reflexivity|]; split;
       [right; right; eexists; apply lookup_insert_eq | solve_frame].
  destruct (get traces "length") as [len|e]; simpl.
  2: { eexists; split; [reflexivity|]; split;
       [right; right; eexists; apply lookup_insert_eq | solve_frame]. }
  destruct (strict_eq len (VNum 0)); simpl.
  { eexists; split; [reflexivity|]; split;
       [left; apply lookup_insert_eq | solve_frame]. }
  destruct (as_array "filter" traces ≫= _) as [[[[items k] ds] cs]|e]; simpl.
  2: { eexists; split; [reflexivity|]; split;
       [right; right; eexists; apply lookup_insert_eq | solve_frame]. }
  destruct (array_map TraceList.renderTraceItem items) as [rendered|e]; simpl.
  - eexists; split; [reflexivity|]; split;
      [right; left; eexists; apply lookup_insert_eq | solve_frame].
  - eexists; split; [reflexivity|]; split;
      [right; right; eexists; apply lookup_insert_eq | solve_frame].
Qed.

(** X2.  The four statistics are written together or not at all: after
    any [loadTraces] either each of them is as before, or they show the
    total [n] of traces, the number [k] of successful ones, [n]
    duration summands and [n] span-count summands, with [0 < n] (the
    average never divides by zero) and [k <= n]. *)
Theorem stats_update_together (r : response) (doc : gmap string content) :
  exists o doc',
    TraceList.loadTraces r doc = (o, doc')
    /\ ((forall id, id ∈ stat_ids -> doc' !! id = doc !! id)
        \/ exists n k durations counts,
             (0 < n)%nat /\ (k <= n)%nat
             /\ length durations = n /\ length counts = n
             /\ doc' !! "total-traces" = Some (TotalTraces n)
             /\ doc' !! "success-rate" = Some (SuccessRate k n)
             /\ doc' !! "avg-duration" = Some (AvgDuration durations n)
             /\ doc' !! "total-spans" = Some (TotalSpans counts)).
Proof.
  assert (forall c, forall id, id ∈ stat_ids ->
            <["trace-list" := c]> doc !! id = doc !! id) as Hkeep.
  { intros c id Hid. apply lookup_insert_ne. intros <-.
    repeat (apply elem_of_cons in Hid as [Hid|Hid]; [done|]).
    by apply elem_of_nil in Hid. }
  unfold TraceList.loadTraces, try_catch, Js.bind, TraceList.set_content, eval.
  destruct r as [e|e|traces]; simpl.
  1,2: eexists _, _; split; [reflexivity|]; left; apply Hkeep.
  destruct (get traces "length") as [len|e] eqn:Hlen; simpl.
  2: { eexists _, _; split; [reflexivity|]; left; apply Hkeep. }
  destruct (strict_eq len (VNum 0)) eqn:Hzero; simpl.
  { eexists _, _; split; [reflexivity|]; left; apply Hkeep. }
  destruct traces as [| | | | |items|fields]; simpl;
    try (eexists _, _; split; [reflexivity|]; left; apply Hkeep).
  injection Hlen as <-. rewrite num_of_nat_zero in Hzero.
  apply bool_decide_eq_false in Hzero.
  destruct (array_filter _ items) as [successful|e] eqn:Hfilter; simpl.
  2: { eexists _, _; split; [reflexivity|]; left; apply Hkeep. }
  destruct (array_map (fun t => get t "total_duration_ms" ≫= _) items)
    as [durations|e] eqn:Hdur; simpl.
  2: { eexists _, _; split; [reflexivity|]; left; apply Hkeep. }
  destruct (array_map (fun t => get t "span_count" ≫= _) items)
    as [counts|e] eqn:Hcnt; simpl.
  2: { eexists _, _; split; [reflexivity|]; left; apply Hkeep. }
  apply array_filter_length in Hfilter.
  apply array_map_length in Hdur, Hcnt.
  destruct (array_map TraceList.renderTraceItem items) as [rendered|e]; simpl;
    eexists _, _; (split; [reflexivity|]); right;
    exists (length items), (length successful), durations, counts;
    (split; [lia|]); (split; [done|]); (split; [done|]); (split; [done|]);
    rewrite ?(lookup_insert_ne _ "trace-list") by done;
    rewrite ?(lookup_insert_ne _ "total-spans" "avg-duration") by done;
    rewrite ?(lookup_insert_ne _ "total-spans" "success-rate") by done;
    rewrite ?(lookup_insert_ne _ "total-spans" "total-traces") by done;
    rewrite ?(lookup_insert_ne _ "avg-duration" "success-rate") by done;
    rewrite ?(lookup_insert_ne _ "avg-duration" "total-traces") by done;
    rewrite ?(lookup_insert_ne _ "success-rate" "total-traces") by done;
    rewrite !lookup_insert_eq; done.
Qed.

(** What the callback returns for a summary the dashboard can draw. *)
Lemma renderTraceItem_run t :
  renderable_summary t = true ->
  exists q,
    TraceList.renderTraceItem t
    = Ok {| ti_trace_id := prop "trace_id" t;
            ti_name := or_else (prop "name" t) (VStr "Unnamed trace");
            ti_status := prop "status" t;
            ti_span_count := or_else (prop "span_count" t) (VNum 0);
            ti_duration := q;
            ti_start := prop "start_time" t;
            ti_agent := if truthy (prop "agent_id" t) then Some (prop "agent_id" t)
                        else None;
            ti_framework := if truthy (prop "framework" t) then Some (prop "framework" t)
                            else None |}.
Proof.
  unfold renderable_summary. intros H. split_andb.
  match goal with H : negb _ = true |- _ => apply negb_true_iff in H; rename H into Ht end.
  match goal with H : is_number _ = true |- _ =>
    apply toFixed_number in H as (q & _ & Hq) end.
  exists q. unfold TraceList.renderTraceItem.
  rewrite !(get_not_nullish _ _ Ht). cbn [mbind outcome_bind]. convert.
  rewrite Hq. cbn [mbind outcome_bind]. convert.
  destruct (truthy (prop "agent_id" t)), (truthy (prop "framework" t));
    cbn [mbind outcome_bind]; convert; reflexivity.
Qed.

Lemma renderTraceItem_ok t :
  renderable_summary t = true -> exists i, TraceList.renderTraceItem t = Ok i.
Proof. intros Ht. destruct (renderTraceItem_run t Ht) as [q ->]. eauto. Qed.

Lemma renderTraceItem_throws t :
  nullish t = false ->
  is_number (or_else (prop "total_duration_ms" t) (VNum 0)) = false ->
  exists e, TraceList.renderTraceItem t = Throw e.
Proof.
  intros Ht Hd. unfold TraceList.renderTraceItem.
  rewrite !(get_not_nullish _ _ Ht). cbn [mbind outcome_bind].
  destruct (ToPrimitive (prop "trace_id" t)); cbn [mbind outcome_bind]; [|eauto].
  destruct (ToPrimitive (or_else (prop "name" t) _)); cbn [mbind outcome_bind]; [|eauto].
  destruct (ToPrimitive (prop "status" t)); cbn [mbind outcome_bind]; [|eauto].
  destruct (ToPrimitive (or_else (prop "span_count" t) _)); cbn [mbind outcome_bind];
    [|eauto].
  destruct (or_else (prop "total_duration_ms" t) _) as [| | |q| | |]; try done;
    simpl; eauto.
Qed.

Lemma dashboard_stats_ok items :
  Forall (fun t => summable_summary t = true) items ->
  array_filter (fun t => st ← get t "status"; Ok (strict_eq st (VStr "success"))) items
  = Ok (List.filter is_success items)
  /\ array_map (fun t => d ← get t "total_duration_ms"; ToPrimitive (or_else d (VNum 0)))
       items
     = Ok ((fun t => or_else (prop "total_duration_ms" t) (VNum 0)) <$> items)
  /\ array_map (fun t => c ← get t "span_count"; ToPrimitive (or_else c (VNum 0))) items
     = Ok ((fun t => or_else (prop "span_count" t) (VNum 0)) <$> items).
Proof.
  intros Hitems. split; [|split].
  - apply array_filter_pure. eapply Forall_impl; [exact Hitems|].
    intros t Ht. unfold summable_summary in Ht. split_andb.
    match goal with H : negb _ = true |- _ => apply negb_true_iff in H; rename H into Hn end.
    simpl. by rewrite (get_not_nullish _ _ Hn).
  - apply array_map_pure. eapply Forall_impl; [exact Hitems|].
    intros t Ht. unfold summable_summary in Ht. split_andb.
    match goal with H : negb _ = true |- _ => apply negb_true_iff in H; rename H into Hn end.
    simpl. rewrite (get_not_nullish _ _ Hn). simpl. by apply ToPrimitive_printable.
  - apply array_map_pure. eapply Forall_impl; [exact Hitems|].
    intros t Ht. unfold summable_summary in Ht. split_andb.
    match goal with H : negb _ = true |- _ => apply negb_true_iff in H; rename H into Hn end.
    simpl. rewrite (get_not_nullish _ _ Hn). simpl. by apply ToPrimitive_printable.
Qed.

Lemma renderable_summary_summable t :
  renderable_summary t = true -> summable_summary t = true.
Proof.
  unfold renderable_summary, summable_summary. intros H. split_andb.
  repeat (apply andb_true_intro; split); try done. by apply is_number_printable.
Qed.

Lemma summable_summary_not_nullish t : summable_summary t = true -> nullish t = false.
Proof. unfold summable_summary. intros H. split_andb. by apply negb_true_iff. Qed.

(** X3.  On a non-empty array of summaries the dashboard can draw (not
    null, the duration a number or falsy, every interpolated value
    convertible to text), [loadTraces] writes the statistics (the total,
    the count of entries whose status is exactly "success", the
    per-entry durations and span counts with 0 for falsy values) and one
    trace item per summary, in the order of the response. *)
Theorem dashboard_lists_traces_in_response_order
    (items : list value) (doc : gmap string content) :
  items <> [] ->
  Forall (fun t => renderable_summary t = true) items ->
  exists rendered,
    TraceList.loadTraces (Body (VArr items)) doc
    = (Ok (),
       <["trace-list" := TraceItems rendered]>
         (<["total-spans" :=
              TotalSpans ((fun t => or_else (prop "span_count" t) (VNum 0)) <$> items)]>
            (<["avg-duration" :=
                 AvgDuration
                   ((fun t => or_else (prop "total_duration_ms" t) (VNum 0)) <$> items)
                   (length items)]>
               (<["success-rate" :=
                    SuccessRate (length (List.filter is_success items)) (length items)]>
                  (<["total-traces" := TotalTraces (length items)]> doc)))))
    /\ Forall2 (fun t i => TraceList.renderTraceItem t = Ok i) items rendered
    /\ ti_trace_id <$> rendered = prop "trace_id" <$> items.
Proof.
  intros Hne Hitems.
  assert (Forall (fun t => summable_summary t = true) items) as Hsum
    by (eapply Forall_impl; [exact Hitems|]; apply renderable_summary_summable).
  destruct (dashboard_stats_ok _ Hsum) as (Hfilter & Hdur & Hcnt).
  destruct (array_map_ok TraceList.renderTraceItem items) as (rendered & Hmap & Hall).
  { eapply Forall_impl; [exact Hitems|]. intros t. apply renderTraceItem_ok. }
  exists rendered. split; [|split; [done|]].
  - unfold TraceList.loadTraces, try_catch, Js.bind, TraceList.set_content, eval.
    cbn -[strict_eq num_of_nat].
    rewrite num_of_nat_zero, bool_decide_eq_false_2 by (by destruct items). simpl.
    rewrite Hfilter. simpl. rewrite Hdur. simpl. rewrite Hcnt. simpl.
    by rewrite Hmap.
  - clear Hmap Hne Hfilter Hdur Hcnt Hsum.
    induction Hall as [|t i items rendered Hti _ IH]; [done|].
    apply Forall_cons in Hitems as [Ht Hitems].
    rewrite !fmap_cons. f_equal; [|by apply IH].
    destruct (renderTraceItem_run t Ht) as [q Hq]. rewrite Hq in Hti.
    by injection Hti as <-.
Qed.

Lemma dashboard_lists_traces_in_response_order_witness :
  exists rendered,
    TraceList.loadTraces
      (Body (VArr [example_summary "t1" "success" (VNum 4);
                   example_summary "t2" "error" VNull])) ∅
    = (Ok (),
       <["trace-list" := TraceItems rendered]>
         (<["total-spans" :=
              TotalSpans ((fun t => or_else (prop "span_count" t) (VNum 0))
                            <$> [example_summary "t1" "success" (VNum 4);
                                 example_summary "t2" "error" VNull])]>
            (<["avg-duration" :=
                 AvgDuration
                   ((fun t => or_else (prop "total_duration_ms" t) (VNum 0))
                      <$> [example_summary "t1" "success" (VNum 4);
                           example_summary "t2" "error" VNull])
                   (length [example_summary "t1" "success" (VNum 4);
                            example_summary "t2" "error" VNull])]>
               (<["success-rate" :=
                    SuccessRate
                      (length (List.filter is_success
                                 [example_summary "t1" "success" (VNum 4);
                                  example_summary "t2" "error" VNull]))
                      (length [example_summary "t1" "success" (VNum 4);
                               example_summary "t2" "error" VNull])]>
                  (<["total-traces" :=
                       TotalTraces (length [example_summary "t1" "success" (VNum 4);
                                            example_summary "t2" "error" VNull])]> ∅)))))
    /\ Forall2 (fun t i => TraceList.renderTraceItem t = Ok i)
         [example_summary "t1" "success" (VNum 4); example_summary "t2" "error" VNull]
         rendered
    /\ ti_trace_id <$> rendered
       = prop "trace_id" <$> [example_summary "t1" "success" (VNum 4);
                              example_summary "t2" "error" VNull].
Proof.
  apply (dashboard_lists_traces_in_response_order
           [example_summary "t1" "success" (VNum 4); example_summary "t2" "error" VNull] ∅).
  - discriminate.
  - repeat constructor.
Defined.

(** X4.  When every duration and span count of the response can be
    summed and one summary carries a truthy [total_duration_ms] that is
    not a number (a string, say), the statistics are updated from the
    whole response, and only then the rendering of the items throws:
    [trace-list] ends with an error message beside fresh statistics. *)
Theorem bad_duration_updates_stats_but_not_list
    (items : list value) (doc : gmap string content) :
  Forall (fun t => summable_summary t = true) items ->
  Exists (fun t => is_number (or_else (prop "total_duration_ms" t) (VNum 0)) = false) items ->
  exists e,
    TraceList.loadTraces (Body (VArr items)) doc
    = (Ok (),
       <["trace-list" := ErrorMessage "Error loading traces: " (VStr (message e))]>
         (<["total-spans" :=
              TotalSpans ((fun t => or_else (prop "span_count" t) (VNum 0)) <$> items)]>
            (<["avg-duration" :=
                 AvgDuration
                   ((fun t => or_else (prop "total_duration_ms" t) (VNum 0)) <$> items)
                   (length items)]>
               (<["success-rate" :=
                    SuccessRate (length (List.filter is_success items)) (length items)]>
                  (<["total-traces" := TotalTraces (length items)]> doc))))).
Proof.
  intros Hsum Hbad.
  destruct (dashboard_stats_ok _ Hsum) as (Hfilter & Hdur & Hcnt).
  destruct (array_map_throws TraceList.renderTraceItem items) as (e & Hmap).
  { rewrite Exists_exists in Hbad. destruct Hbad as (t & Hin & Ht).
    rewrite Exists_exists. exists t. split; [done|].
    rewrite Forall_forall in Hsum.
    apply renderTraceItem_throws; [|done].
    apply summable_summary_not_nullish. by apply Hsum. }
  exists e.
  unfold TraceList.loadTraces, try_catch, Js.bind, TraceList.set_content, eval.
  cbn -[strict_eq num_of_nat].
  rewrite num_of_nat_zero, bool_decide_eq_false_2.
  2: { destruct items; [|done]. by apply Exists_nil in Hbad. }
  simpl. rewrite Hfilter. simpl. rewrite Hdur. simpl. rewrite Hcnt. simpl.
  by rewrite Hmap.
Qed.

Lemma bad_duration_updates_stats_but_not_list_witness :
  exists e,
    TraceList.loadTraces
      (Body (VArr [example_summary "t1" "success" (VNum 4);
                   example_summary "t2" "success" (VStr "12ms")])) ∅
    = (Ok (),
       <["trace-list" := ErrorMessage "Error loading traces: " (VStr (message e))]>
         (<["total-spans" :=
              TotalSpans ((fun t => or_else (prop "span_count" t) (VNum 0))
                            <$> [example_summary "t1" "success" (VNum 4);
                                 example_summary "t2" "success" (VStr "12ms")])]>
            (<["avg-duration" :=
                 AvgDuration
                   ((fun t => or_else (prop "total_duration_ms" t) (VNum 0))
                      <$> [example_summary "t1" "success" (VNum 4);
                           example_summary "t2" "success" (VStr "12ms")])
                   (length [example_summary "t1" "success" (VNum 4);
                            example_summary "t2" "success" (VStr "12ms")])]>
               (<["success-rate" :=
                    SuccessRate
                      (length (List.filter is_success
                                 [example_summary "t1" "success" (VNum 4);
                                  example_summary "t2" "success" (VStr "12ms")]))
                      (length [example_summary "t1" "success" (VNum 4);
                               example_summary "t2" "success" (VStr "12ms")])]>
                  (<["total-traces" :=
                       TotalTraces (length [example_summary "t1" "success" (VNum 4);
                                            example_summary "t2" "success" (VStr "12ms")])]>
                     ∅))))).
Proof.
  apply (bad_duration_updates_stats_but_not_list
           [example_summary "t1" "success" (VNum 4);
            example_summary "t2" "success" (VStr "12ms")] ∅).
  - repeat constructor.
  - apply Exists_cons_tl, Exists_cons_hd. reflexivity.
Defined.

(** A duration no sum can take: the first [reduce] throws before any
    statistic is written, and the page shows the error message beside
    the statistics it had. *)
Lemma unsummable_duration_leaves_stats (doc : gmap string content) :
  exists e,
    TraceList.loadTraces
      (Body (VArr [example_summary "t1" "success" (VNum 4);
                   example_summary "t2" "success" unprintable])) doc
    = (Ok (),
       <["trace-list" := ErrorMessage "Error loading traces: " (VStr (message e))]> doc).
Proof. eexists. reflexivity. Qed.

Ltac solve_same_map :=
  f_equal; apply map_eq; intros ?; rewrite ?lookup_insert;
  repeat case_decide; congruence.

(** X5.  The periodic refresh is idempotent: running [loadTraces] again
    on the same response leaves the page exactly as the first run left
    it, on every response and every page. *)
Theorem refresh_with_same_response_changes_nothing
    (r : response) (doc : gmap string content) :
  TraceList.loadTraces r (TraceList.loadTraces r doc).2 = TraceList.loadTraces r doc.
Proof.
  unfold TraceList.loadTraces, try_catch, Js.bind, TraceList.set_content, eval.
  destruct r as [e|e|traces]; simpl; [solve_same_map..|].
  destruct (get traces "length") as [len|e]; simpl; [|solve_same_map].
  destruct (strict_eq len (VNum 0)); simpl; [solve_same_map|].
  destruct (as_array "filter" traces ≫= _) as [[[[items k] ds] cs]|e]; simpl;
    [|solve_same_map].
  destruct (array_map TraceList.renderTraceItem items) as [rendered|e]; simpl;
    solve_same_map.
Qed.

(** ** The viewer's load path as a whole *)

Ltac post_throw :=
  split; [reflexivity|]; split; [reflexivity|]; split; [solve_frame | done].

Lemma renderTraceMetadata_post (p : TraceViewer.page) :
  TraceViewer.currentTrace (TraceViewer.renderTraceMetadata p).2 = TraceViewer.currentTrace p
  /\ TraceViewer.modal_active (TraceViewer.renderTraceMetadata p).2 = TraceViewer.modal_active p
  /\ unchanged_outside ["trace-title"; "trace-id"; "trace-metadata"]
       (TraceViewer.elements p) (TraceViewer.elements (TraceViewer.renderTraceMetadata p).2)
  /\ ((TraceViewer.renderTraceMetadata p).1 = Ok () ->
      exists g, TraceViewer.elements (TraceViewer.renderTraceMetadata p).2 !! "trace-metadata"
                = Some (MetadataGrid g)).
Proof.
  unfold TraceViewer.renderTraceMetadata, TraceViewer.read_currentTrace,
    TraceViewer.set_content, Js.bind, eval. simpl.
  destruct (get (TraceViewer.currentTrace p) "name") as [name|]; simpl;
    [|post_throw].
  destruct (ToPrimitive (or_else name _)); simpl; [|post_throw].
  destruct (get (TraceViewer.currentTrace p) "trace_id") as [tid|]; simpl;
    [|post_throw].
  destruct (ToPrimitive tid); simpl; [|post_throw].
  destruct (get (TraceViewer.currentTrace p) "metadata"); simpl;
    [|post_throw].
  destruct (get (TraceViewer.currentTrace p) "spans") as [spans|]; simpl;
    [|post_throw].
  destruct (get_index spans 0); simpl; [|post_throw].
  destruct (get spans "length") as [len|]; simpl; [|post_throw].
  destruct (ToPrimitive len); simpl; [|post_throw].
  destruct (as_array "some" spans ≫= _) as [g|]; simpl;
    [|post_throw].
  split; [reflexivity|]. split; [reflexivity|]. split; [solve_frame|].
  intros _. exists g. apply lookup_insert_eq.
Qed.

Lemma sort_spans_post (h : host) (p : TraceViewer.page) :
  TraceViewer.modal_active (TraceViewer.sort_spans h p).2 = TraceViewer.modal_active p
  /\ TraceViewer.elements (TraceViewer.sort_spans h p).2 = TraceViewer.elements p.
Proof.
  unfold TraceViewer.sort_spans, TraceViewer.read_currentTrace,
    TraceViewer.write_currentTrace, Js.bind, eval, ret. simpl.
  destruct (get (TraceViewer.currentTrace p) "spans") as [spans|]; simpl; [|done].
  destruct (as_array "sort" spans) as [items|]; simpl; [|done].
  destruct (array_sort _ items); simpl; [|done].
  by destruct (TraceViewer.currentTrace p).
Qed.

Lemma renderExecutionGraph_post (h : host) (p : TraceViewer.page) :
  TraceViewer.modal_active (TraceViewer.renderExecutionGraph h p).2
  = TraceViewer.modal_active p
  /\ unchanged_outside ["execution-graph"]
       (TraceViewer.elements p)
       (TraceViewer.elements (TraceViewer.renderExecutionGraph h p).2)
  /\ ((TraceViewer.renderExecutionGraph h p).1 = Ok () ->
      exists nodes,
        TraceViewer.elements (TraceViewer.renderExecutionGraph h p).2 !! "execution-graph"
        = Some (SpanNodes nodes)).
Proof.
  pose proof (sort_spans_post h p) as [Hmodal Helems].
  unfold TraceViewer.renderExecutionGraph, TraceViewer.read_currentTrace,
    TraceViewer.set_content, Js.bind, eval. simpl.
  destruct (get (TraceViewer.currentTrace p) "spans") as [spans|]; simpl;
    [|split; [done|]; split; [solve_frame|done]].
  destruct (as_array "forEach" spans) as [items|]; simpl;
    [|split; [done|]; split; [solve_frame|done]].
  destruct (array_map _ items); simpl; [|split; [done|]; split; [solve_frame|done]].
  destruct (array_filter _ items); simpl; [|split; [done|]; split; [solve_frame|done]].
  destruct (TraceViewer.sort_spans h p) as [[sorted|] p1]; simpl in *;
    [|split; [done|]; split; [rewrite Helems; solve_frame|done]].
  destruct (array_map _ sorted) as [nodes|]; simpl;
    [|split; [done|]; split; [rewrite Helems; solve_frame|done]].
  split; [done|]. split; [rewrite Helems; solve_frame|].
  intros _. exists nodes. apply lookup_insert_eq.
Qed.

Lemma renderSpanList_post (h : host) (p : TraceViewer.page) :
  TraceViewer.modal_active (TraceViewer.renderSpanList h p).2
  = TraceViewer.modal_active p
  /\ unchanged_outside ["span-list"]
       (TraceViewer.elements p)
       (TraceViewer.elements (TraceViewer.renderSpanList h p).2)
  /\ ((TraceViewer.renderSpanList h p).1 = Ok () ->
      exists rows,
        TraceViewer.elements (TraceViewer.renderSpanList h p).2 !! "span-list"
        = Some (SpanRows rows)).
Proof.
  pose proof (sort_spans_post h p) as [Hmodal Helems].
  unfold TraceViewer.renderSpanList, TraceViewer.set_content, Js.bind, eval. simpl.
  destruct (TraceViewer.sort_spans h p) as [[sorted|] p1]; simpl in *;
    [|split; [done|]; split; [rewrite Helems; solve_frame|done]].
  destruct (array_map _ sorted) as [rows|]; simpl;
    [|split; [done|]; split; [rewrite Helems; solve_frame|done]].
  split; [done|]. split; [rewrite Helems; solve_frame|].
  intros _. exists rows. apply lookup_insert_eq.
Qed.

Ltac sub_frame Hid :=
  let Hin := fresh "Hin" in
  intros Hin; apply Hid;
  repeat (apply elem_of_cons in Hin as [->|Hin]; [in_list|]);
  by apply elem_of_nil in Hin.

Ltac lit_not_in :=
  let Hin := fresh "Hin" in
  intros Hin;
  repeat (apply elem_of_cons in Hin as [Hin|Hin]; [done|]);
  by apply elem_of_nil in Hin.

(** X6.  [loadTrace] returns normally on every response.  It neither
    opens nor closes the modal and changes no element outside the five
    it renders; afterwards [trace-metadata] holds an error message, or
    it holds the metadata grid and then the graph and the list have both
    been drawn. *)
Theorem loadTrace_always_returns (h : host) (r : response) (p : TraceViewer.page) :
  exists p',
    TraceViewer.loadTrace h r p = (Ok (), p')
    /\ TraceViewer.modal_active p' = TraceViewer.modal_active p
    /\ unchanged_outside viewer_ids (TraceViewer.elements p) (TraceViewer.elements p')
    /\ ((exists prefix detail,
           TraceViewer.elements p' !! "trace-metadata" = Some (ErrorMessage prefix detail))
        \/ (exists g nodes rows,
              TraceViewer.elements p' !! "trace-metadata" = Some (MetadataGrid g)
              /\ TraceViewer.elements p' !! "execution-graph" = Some (SpanNodes nodes)
              /\ TraceViewer.elements p' !! "span-list" = Some (SpanRows rows))).
Proof.
  unfold TraceViewer.loadTrace, try_catch.
  destruct r as [e|e|trace].
  1,2: eexists; split; [reflexivity|]; split; [reflexivity|]; split;
       [solve_frame | left; eexists _, _; apply lookup_insert_eq].
  unfold Js.bind at 1. simpl. unfold Js.bind at 1. simpl.
  unfold Js.bind at 1. simpl.
  set (p0 := TraceViewer.Page trace (TraceViewer.elements p) (TraceViewer.modal_active p)).
  destruct (get trace "error") as [err|e]; simpl.
  2: { eexists; split; [reflexivity|]; split; [reflexivity|]; split;
       [solve_frame | left; eexists _, _; apply lookup_insert_eq]. }
  destruct (truthy err); simpl.
  { unfold Js.bind, eval, TraceViewer.set_content.
    destruct (ToPrimitive err); simpl;
      eexists; (split; [reflexivity|]); (split; [reflexivity|]); split;
      [solve_frame | left; eexists _, _; apply lookup_insert_eq
      |solve_frame | left; eexists _, _; apply lookup_insert_eq]. }
  unfold Js.bind.
  destruct (renderTraceMetadata_post p0) as (_ & Hm1 & He1 & Hg1).
  destruct (TraceViewer.renderTraceMetadata p0) as [[[]|e] p1]; simpl in *.
  2: { eexists; split; [reflexivity|]; split; [done|]; split;
       [|left; eexists _, _; apply lookup_insert_eq].
       intros id Hid. simpl. rewrite lookup_insert_ne by (intros <-; apply Hid; in_list).
       apply He1. sub_frame Hid. }
  destruct (Hg1 eq_refl) as [g Hg].
  destruct (renderExecutionGraph_post h p1) as (Hm2 & He2 & Hg2).
  destruct (TraceViewer.renderExecutionGraph h p1) as [[[]|e] p2]; simpl in *.
  2: { eexists; split; [reflexivity|]; split; [by rewrite ?Hm3, ?Hm2, ?Hm1|]; split;
       [|left; eexists _, _; apply lookup_insert_eq].
       intros id Hid. simpl. rewrite lookup_insert_ne by (intros <-; apply Hid; in_list).
       rewrite He2, He1; [done|sub_frame Hid..]. }
  destruct (Hg2 eq_refl) as [nodes Hnodes].
  destruct (renderSpanList_post h p2) as (Hm3 & He3 & Hg3).
  destruct (TraceViewer.renderSpanList h p2) as [[[]|e] p3]; simpl in *.
  2: { eexists; split; [reflexivity|]; split; [by rewrite ?Hm3, ?Hm2, ?Hm1|]; split;
       [|left; eexists _, _; apply lookup_insert_eq].
       intros id Hid. simpl. rewrite lookup_insert_ne by (intros <-; apply Hid; in_list).
       rewrite He3, He2, He1; [done|sub_frame Hid..]. }
  destruct (Hg3 eq_refl) as [rows Hrows].
  exists p3. split; [reflexivity|]. split; [by rewrite ?Hm3, ?Hm2, ?Hm1|]. split.
  - intros id Hid. rewrite He3, He2, He1; [done|sub_frame Hid..].
  - right. exists g, nodes, rows. split; [|split; [|done]].
    + rewrite He3, He2 by lit_not_in. done.
    + rewrite He3 by lit_not_in. done.
Qed.

(** ** What a successful load leaves in the page *)

Lemma set_field_idem k v fields :
  set_field k v (set_field k v fields) = set_field k v fields.
Proof.
  induction fields as [|[k0 v0] fields IH]; simpl.
  - by rewrite String.eqb_refl.
  - destruct (String.eqb k k0) eqn:Hk; simpl.
    + by rewrite String.eqb_refl.
    + by rewrite Hk, IH.
Qed.

(** A span the comparator can be applied to: not null, with a
    [start_time] that converts to a primitive. *)
Lemma sort_insert_nonnull h x l :
  nullish x = false -> printable (prop "start_time" x) = true ->
  Forall (fun s => nullish s = false /\ printable (prop "start_time" s) = true) l ->
  exists r, sort_insert (TraceViewer.by_start_time h) x l = Ok r.
Proof.
  intros Hx Hpx. induction 1 as [|y l [Hy Hpy] _ (r & IH)]; cbn [sort_insert].
  - by exists [x].
  - rewrite (by_start_time_nonnull h _ _ Hx Hy Hpx Hpy). simpl.
    destruct (_ <=? 0); [by eexists|].
    rewrite IH. simpl. by eexists.
Qed.

Lemma array_sort_nonnull h items :
  Forall (fun s => nullish s = false /\ printable (prop "start_time" s) = true) items ->
  exists sorted,
    array_sort (TraceViewer.by_start_time h) items = Ok sorted /\ sorted ≡ₚ items.
Proof.
  induction 1 as [|x items [Hx Hpx] Hitems (s & IH & Hperm)]; cbn [array_sort].
  - by exists [].
  - rewrite IH. cbn [mbind outcome_bind].
    destruct (sort_insert_nonnull h x s Hx Hpx) as (r & Hr); [by rewrite Hperm|].
    exists r. split; [done|]. by rewrite (sort_insert_perm _ _ _ _ Hr), Hperm.
Qed.

Lemma array_sort_sorted h l :
  Forall (dated h) l -> StronglySorted (ms_le h) l ->
  array_sort (TraceViewer.by_start_time h) l = Ok l.
Proof.
  intros Hd Hs. induction Hs as [|x l Hs IH Hx]; cbn [array_sort]; [done|].
  apply Forall_cons in Hd as [[Hnx [tx Htx]] Hd].
  rewrite (IH Hd). cbn [mbind outcome_bind].
  destruct l as [|y l]; cbn [sort_insert]; [done|].
  apply Forall_cons in Hx as [(tx' & ty & Htx' & Hty & Hle) _].
  apply Forall_cons in Hd as [[Hny _] _].
  rewrite (by_start_time_dated h _ _ _ _ Hnx Hny Htx' Hty). simpl.
  destruct (Z.leb_spec (tx' - ty) 0); [done|lia].
Qed.

Lemma renderExecutionGraph_sort_throws h (p : TraceViewer.page) fields items e :
  TraceViewer.currentTrace p = VObj fields ->
  lookup_field "spans" fields = VArr items ->
  Forall (fun s => nullish s = false) items ->
  array_sort (TraceViewer.by_start_time h) items = Throw e ->
  TraceViewer.renderExecutionGraph h p = (Throw e, p).
Proof.
  intros Hct Hspans Hobj Hsort.
  destruct (array_map_ok (fun span => get span "span_id") items) as (ids & Hids & _).
  { eapply Forall_impl; [exact Hobj|]. intros s Hnn. rewrite (get_not_nullish _ _ Hnn). eauto. }
  destruct (array_filter_ok
              (fun s => p ← get s "parent_span_id"; Ok (negb (truthy p))) items)
    as (roots & Hroots).
  { eapply Forall_impl; [exact Hobj|]. intros s Hnn.
    rewrite (get_not_nullish _ _ Hnn). simpl. eauto. }
  unfold TraceViewer.renderExecutionGraph, TraceViewer.sort_spans,
    TraceViewer.read_currentTrace, Js.bind.
  rewrite Hct. simpl. rewrite Hspans. simpl.
  rewrite Hids, Hroots. simpl. rewrite Hct. simpl. rewrite Hspans. simpl.
  by rewrite Hsort.
Qed.

Lemma loadTrace_renders h fields (p : TraceViewer.page) :
  truthy (lookup_field "error" fields) = false ->
  TraceViewer.loadTrace h (Body (VObj fields)) p
  = try_catch
      (Js.bind TraceViewer.renderTraceMetadata
         (fun _ => Js.bind (TraceViewer.renderExecutionGraph h)
                     (fun _ => TraceViewer.renderSpanList h)))
      (fun error =>
         TraceViewer.set_content "trace-metadata"
           (ErrorMessage "Error loading trace: " (VStr (message error))))
      (TraceViewer.Page (VObj fields) (TraceViewer.elements p) (TraceViewer.modal_active p)).
Proof.
  intros Herr. unfold TraceViewer.loadTrace, try_catch.
  unfold Js.bind at 1. simpl. unfold Js.bind at 1. simpl.
  unfold Js.bind at 1. simpl. by rewrite Herr.
Qed.

Lemma rendered_nodes_ids h sorted nodes :
  Forall (fun s => nullish s = false /\ renderable_span s = true) sorted ->
  Forall2 (fun s n => TraceViewer.renderSpanNode h s = Ok n) sorted nodes ->
  sn_onclick <$> nodes = prop "span_id" <$> sorted.
Proof.
  intros Hnn Hall. induction Hall as [|s n sorted nodes Hsn _ IH]; [done|].
  apply Forall_cons in Hnn as [[Hs Hr] Hnn]. rewrite !fmap_cons. f_equal; [|by apply IH].
  destruct (renderSpanNode_run h s Hs Hr) as (q & b & _ & _ & Hn).
  rewrite Hn in Hsn. by injection Hsn as <-.
Qed.

Lemma rendered_rows_ids sorted rows :
  Forall (fun s => nullish s = false /\ renderable_span s = true) sorted ->
  Forall2 (fun s r => TraceViewer.renderSpanRow s = Ok r) sorted rows ->
  sr_onclick <$> rows = prop "span_id" <$> sorted.
Proof.
  intros Hnn Hall. induction Hall as [|s r sorted rows Hsr _ IH]; [done|].
  apply Forall_cons in Hnn as [[Hs Hr] Hnn]. rewrite !fmap_cons. f_equal; [|by apply IH].
  destruct (renderSpanRow_run s Hs Hr) as (q & _ & Hrow).
  rewrite Hrow in Hsr. by injection Hsr as <-.
Qed.

(** X7.  After [loadTrace] on a trace whose header can be drawn and
    whose spans are dated and can be drawn, the graph and the list show
    the same spans in the same order, and because the sort is in place
    [currentTrace.spans] holds that order too; the rest of the trace
    record is untouched. *)
Theorem load_draws_both_views_in_one_order
    (h : host) (fields : list (string * value)) (items : list value)
    (p : TraceViewer.page) :
  truthy (lookup_field "error" fields) = false ->
  lookup_field "spans" fields = VArr items ->
  Forall (fun s => dated h s /\ renderable_span s = true) items ->
  renderable_metadata (VObj fields) = true ->
  exists sorted nodes rows p',
    TraceViewer.loadTrace h (Body (VObj fields)) p = (Ok (), p')
    /\ TraceViewer.elements p' !! "execution-graph" = Some (SpanNodes nodes)
    /\ TraceViewer.elements p' !! "span-list" = Some (SpanRows rows)
    /\ sn_onclick <$> nodes = prop "span_id" <$> sorted
    /\ sr_onclick <$> rows = prop "span_id" <$> sorted
    /\ sorted ≡ₚ items
    /\ TraceViewer.currentTrace p' = VObj (set_field "spans" (VArr sorted) fields)
    /\ TraceViewer.modal_active p' = TraceViewer.modal_active p.
Proof.
  intros Herr Hspans Hitems Hmeta.
  apply Forall_and in Hitems as [Hdated Hrender].
  assert (Forall (fun s => nullish s = false) items) as Hobj
    by (eapply Forall_impl; [exact Hdated|]; by intros s [? _]).
  destruct (array_sort_dated h items Hdated) as (sorted & Hsort & Hperm & Hsorted & _).
  assert (Forall (dated h) sorted) as Hdated' by (by rewrite Hperm).
  assert (Forall (fun s => nullish s = false /\ renderable_span s = true) sorted) as Hs.
  { rewrite Hperm. apply Forall_and. by split. }
  destruct (array_map_ok (TraceViewer.renderSpanNode h) sorted) as (nodes & Hnodes & Hn2).
  { eapply Forall_impl; [exact Hs|]. intros s [? ?]. by apply renderSpanNode_ok. }
  destruct (array_map_ok TraceViewer.renderSpanRow sorted) as (rows & Hrows & Hr2).
  { eapply Forall_impl; [exact Hs|]. intros s [? ?]. by apply renderSpanRow_ok. }
  set (p0 := TraceViewer.Page (VObj fields) (TraceViewer.elements p)
               (TraceViewer.modal_active p)).
  destruct (renderTraceMetadata_ok p0 fields items eq_refl Hspans Hobj Hmeta)
    as (q & _ & Hmd).
  exists sorted, nodes, rows. eexists.
  rewrite (loadTrace_renders h fields p Herr). fold p0.
  unfold try_catch, Js.bind. rewrite Hmd.
  erewrite (renderExecutionGraph_run h _ fields items sorted); [|done..].
  rewrite Hnodes.
  erewrite (renderSpanList_run h _ _ sorted sorted);
    [|reflexivity | by rewrite lookup_set_field | by apply array_sort_sorted].
  rewrite Hrows, set_field_idem. simpl.
  split; [reflexivity|]. simpl.
  split; [by rewrite lookup_insert_ne, lookup_insert_eq|].
  split; [by rewrite lookup_insert_eq|].
  split; [by apply (rendered_nodes_ids h)|].
  split; [by apply rendered_rows_ids|]. done.
Qed.

Lemma load_draws_both_views_in_one_order_witness :
  exists sorted nodes rows p',
    TraceViewer.loadTrace numeric_host
      (Body (example_trace [example_span "a" 9 "success"; example_span "b" 4 "error"]))
      blank_page
    = (Ok (), p')
    /\ TraceViewer.elements p' !! "execution-graph" = Some (SpanNodes nodes)
    /\ TraceViewer.elements p' !! "span-list" = Some (SpanRows rows)
    /\ sn_onclick <$> nodes = prop "span_id" <$> sorted
    /\ sr_onclick <$> rows = prop "span_id" <$> sorted
    /\ sorted ≡ₚ [example_span "a" 9 "success"; example_span "b" 4 "error"]
    /\ TraceViewer.currentTrace p'
       = VObj (set_field "spans" (VArr sorted)
                 [("trace_id", VStr "tr_1"); ("name", VStr "demo");
                  ("metadata", VObj [("total_duration_ms", VNum 7); ("span_count", VNum 2)]);
                  ("spans", VArr [example_span "a" 9 "success";
                                  example_span "b" 4 "error"])])
    /\ TraceViewer.modal_active p' = TraceViewer.modal_active blank_page.
Proof.
  apply (load_draws_both_views_in_one_order numeric_host
           [("trace_id", VStr "tr_1"); ("name", VStr "demo");
            ("metadata", VObj [("total_duration_ms", VNum 7); ("span_count", VNum 2)]);
            ("spans", VArr [example_span "a" 9 "success"; example_span "b" 4 "error"])]
           [example_span "a" 9 "success"; example_span "b" 4 "error"] blank_page).
  - reflexivity.
  - reflexivity.
  - repeat constructor; by eexists.
  - reflexivity.
Defined.

(** X8.  Whatever dates the [start_time]s give (missing or invalid
    included), sorting only rearranges: when every span is not null and
    can be drawn, the graph and the list each show every span of the
    record exactly once. *)
Theorem every_span_drawn_once
    (h : host) (p : TraceViewer.page)
    (fields : list (string * value)) (items : list value) :
  TraceViewer.currentTrace p = VObj fields ->
  lookup_field "spans" fields = VArr items ->
  Forall (fun s => nullish s = false /\ renderable_span s = true) items ->
  exists nodes rows p1 p2,
    TraceViewer.renderExecutionGraph h p = (Ok (), p1)
    /\ TraceViewer.elements p1 !! "execution-graph" = Some (SpanNodes nodes)
    /\ TraceViewer.renderSpanList h p = (Ok (), p2)
    /\ TraceViewer.elements p2 !! "span-list" = Some (SpanRows rows)
    /\ sn_onclick <$> nodes ≡ₚ prop "span_id" <$> items
    /\ sr_onclick <$> rows ≡ₚ prop "span_id" <$> items.
Proof.
  intros Hct Hspans Hitems.
  assert (Forall (fun s => nullish s = false) items) as Hobj
    by (eapply Forall_impl; [exact Hitems|]; by intros s [? _]).
  destruct (array_sort_nonnull h items) as (sorted & Hsort & Hperm).
  { eapply Forall_impl; [exact Hitems|]. intros s [Hs Hr]. split; [done|].
    by destruct (renderable_span_inv h s Hr) as (_ & _ & _ & _ & _ & _ & ?). }
  assert (Forall (fun s => nullish s = false /\ renderable_span s = true) sorted) as Hs
    by (by rewrite Hperm).
  destruct (array_map_ok (TraceViewer.renderSpanNode h) sorted) as (nodes & Hnodes & Hn2).
  { eapply Forall_impl; [exact Hs|]. intros s [? ?]. by apply renderSpanNode_ok. }
  destruct (array_map_ok TraceViewer.renderSpanRow sorted) as (rows & Hrows & Hr2).
  { eapply Forall_impl; [exact Hs|]. intros s [? ?]. by apply renderSpanRow_ok. }
  exists nodes, rows. eexists _, _.
  rewrite (renderExecutionGraph_run h p fields items sorted Hct Hspans Hobj Hsort), Hnodes.
  rewrite (renderSpanList_run h p fields items sorted Hct Hspans Hsort), Hrows.
  split; [reflexivity|]. split; [apply lookup_insert_eq|].
  split; [reflexivity|]. split; [apply lookup_insert_eq|].
  rewrite (rendered_nodes_ids h sorted nodes Hs Hn2).
  rewrite (rendered_rows_ids sorted rows Hs Hr2).
  by rewrite Hperm.
Qed.

Lemma every_span_drawn_once_witness :
  exists nodes rows p1 p2,
    TraceViewer.renderExecutionGraph numeric_host
      (TraceViewer.Page
         (example_trace [example_span "a" 9 "success";
                         VObj [("span_id", VStr "undated"); ("llm_calls", VArr [])]])
         ∅ false)
    = (Ok (), p1)
    /\ TraceViewer.elements p1 !! "execution-graph" = Some (SpanNodes nodes)
    /\ TraceViewer.renderSpanList numeric_host
         (TraceViewer.Page
            (example_trace [example_span "a" 9 "success";
                            VObj [("span_id", VStr "undated"); ("llm_calls", VArr [])]])
            ∅ false)
       = (Ok (), p2)
    /\ TraceViewer.elements p2 !! "span-list" = Some (SpanRows rows)
    /\ sn_onclick <$> nodes
       ≡ₚ prop "span_id" <$> [example_span "a" 9 "success";
                              VObj [("span_id", VStr "undated"); ("llm_calls", VArr [])]]
    /\ sr_onclick <$> rows
       ≡ₚ prop "span_id" <$> [example_span "a" 9 "success";
                              VObj [("span_id", VStr "undated"); ("llm_calls", VArr [])]].
Proof.
  apply (every_span_drawn_once numeric_host _
           [("trace_id", VStr "tr_1"); ("name", VStr "demo");
            ("metadata", VObj [("total_duration_ms", VNum 7); ("span_count", VNum 2)]);
            ("spans", VArr [example_span "a" 9 "success";
                            VObj [("span_id", VStr "undated"); ("llm_calls", VArr [])]])]
           [example_span "a" 9 "success";
            VObj [("span_id", VStr "undated"); ("llm_calls", VArr [])]]).
  - reflexivity.
  - reflexivity.
  - repeat constructor.
Defined.

Lemma renderSpanNode_without_llm_calls h s :
  nullish s = false -> nullish (prop "llm_calls" s) = true ->
  exists e, TraceViewer.renderSpanNode h s = Throw e.
Proof.
  intros Hs Hcalls. unfold TraceViewer.renderSpanNode.
  rewrite !(get_not_nullish _ _ Hs). cbn [mbind outcome_bind].
  destruct (ToPrimitive (prop "span_id" s)); cbn [mbind outcome_bind]; [|eauto].
  destruct (ToPrimitive (prop "name" s)); cbn [mbind outcome_bind]; [|eauto].
  destruct (ToPrimitive (prop "span_type" s)); cbn [mbind outcome_bind]; [|eauto].
  destruct (toFixed _); cbn [mbind outcome_bind]; [|eauto].
  destruct (prop "llm_calls" s); try done; simpl; eauto.
Qed.

Lemma renderExecutionGraph_throws h (p : TraceViewer.page) fields items :
  TraceViewer.currentTrace p = VObj fields ->
  lookup_field "spans" fields = VArr items ->
  Forall (fun s => nullish s = false) items ->
  Exists (fun s => nullish (prop "llm_calls" s) = true) items ->
  exists e p',
    TraceViewer.renderExecutionGraph h p = (Throw e, p')
    /\ TraceViewer.elements p' = TraceViewer.elements p.
Proof.
  intros Hct Hspans Hobj Hbad.
  destruct (array_sort (TraceViewer.by_start_time h) items) as [sorted|e] eqn:Hsort.
  - pose proof (array_sort_perm _ _ _ Hsort) as Hperm.
    destruct (array_map_throws (TraceViewer.renderSpanNode h) sorted) as (e & Hnodes).
    { rewrite Hperm. rewrite Exists_exists in Hbad. destruct Hbad as (s & Hin & Hs).
      rewrite Exists_exists. exists s. split; [done|].
      rewrite Forall_forall in Hobj.
      apply renderSpanNode_without_llm_calls; [|done].
      by apply Hobj. }
    rewrite (renderExecutionGraph_run h p fields items sorted Hct Hspans Hobj Hsort), Hnodes.
    eexists _, _. split; reflexivity.
  - rewrite (renderExecutionGraph_sort_throws h p fields items e Hct Hspans Hobj Hsort).
    eexists _, _. split; reflexivity.
Qed.

(** X9.  [renderSpanNode] reads [span.llm_calls.length] unguarded: one
    span without [llm_calls] makes the whole load end in "Error loading
    trace: ...".  The title is already written, the metadata grid is
    replaced by the message, the graph and the list are not drawn. *)
Theorem span_without_llm_calls_fails_the_load
    (h : host) (fields : list (string * value)) (items : list value)
    (p : TraceViewer.page) :
  truthy (lookup_field "error" fields) = false ->
  lookup_field "spans" fields = VArr items ->
  Forall (fun s => nullish s = false) items ->
  renderable_metadata (VObj fields) = true ->
  Exists (fun s => nullish (prop "llm_calls" s) = true) items ->
  exists e p',
    TraceViewer.loadTrace h (Body (VObj fields)) p = (Ok (), p')
    /\ TraceViewer.elements p' !! "trace-metadata"
       = Some (ErrorMessage "Error loading trace: " (VStr (message e)))
    /\ TraceViewer.elements p' !! "trace-title"
       = Some (Text (or_else (lookup_field "name" fields) (VStr "Trace")))
    /\ TraceViewer.elements p' !! "execution-graph"
       = TraceViewer.elements p !! "execution-graph"
    /\ TraceViewer.elements p' !! "span-list" = TraceViewer.elements p !! "span-list".
Proof.
  intros Herr Hspans Hobj Hmeta Hbad.
  set (p0 := TraceViewer.Page (VObj fields) (TraceViewer.elements p)
               (TraceViewer.modal_active p)).
  destruct (renderTraceMetadata_ok p0 fields items eq_refl Hspans Hobj Hmeta)
    as (q & _ & Hmd).
  rewrite (loadTrace_renders h fields p Herr). fold p0.
  unfold try_catch, Js.bind. rewrite Hmd.
  match goal with
  | |- context [TraceViewer.renderExecutionGraph h ?p1] =>
      destruct (renderExecutionGraph_throws h p1 fields items eq_refl Hspans Hobj Hbad)
        as (e & p' & Hgraph & Helems)
  end.
  exists e. eexists. rewrite Hgraph.
  split; [reflexivity|]. simpl. rewrite Helems. simpl.
  split; [apply lookup_insert_eq|].
  split; [by rewrite !(lookup_insert_ne _ "trace-metadata"),
               (lookup_insert_ne _ "trace-id"), lookup_insert_eq|].
  split; by rewrite !lookup_insert_ne.
Qed.

Lemma span_without_llm_calls_fails_the_load_witness :
  exists e p',
    TraceViewer.loadTrace numeric_host
      (Body (example_trace [example_span "a" 9 "success";
                            VObj [("span_id", VStr "b"); ("status", VStr "running")]]))
      blank_page
    = (Ok (), p')
    /\ TraceViewer.elements p' !! "trace-metadata"
       = Some (ErrorMessage "Error loading trace: " (VStr (message e)))
    /\ TraceViewer.elements p' !! "trace-title"
       = Some (Text (or_else
                       (lookup_field "name"
                          [("trace_id", VStr "tr_1"); ("name", VStr "demo");
                           ("metadata",
                            VObj [("total_duration_ms", VNum 7); ("span_count", VNum 2)]);
                           ("spans",
                            VArr [example_span "a" 9 "success";
                                  VObj [("span_id", VStr "b");
                                        ("status", VStr "running")]])])
                       (VStr "Trace")))
    /\ TraceViewer.elements p' !! "execution-graph"
       = TraceViewer.elements blank_page !! "execution-graph"
    /\ TraceViewer.elements p' !! "span-list"
       = TraceViewer.elements blank_page !! "span-list".
Proof.
  apply (span_without_llm_calls_fails_the_load numeric_host
           [("trace_id", VStr "tr_1"); ("name", VStr "demo");
            ("metadata", VObj [("total_duration_ms", VNum 7); ("span_count", VNum 2)]);
            ("spans", VArr [example_span "a" 9 "success";
                            VObj [("span_id", VStr "b"); ("status", VStr "running")]])]
           [example_span "a" 9 "success";
            VObj [("span_id", VStr "b"); ("status", VStr "running")]] blank_page).
  - reflexivity.
  - reflexivity.
  - repeat constructor.
  - reflexivity.
  - apply Exists_cons_tl, Exists_cons_hd. reflexivity.
Defined.

(** ** The trace header *)

(** X10.  The header is rendered before any sort: its start time is the
    [start_time] of the first span of the record, whether or not a
    later entry starts earlier. *)
Theorem header_start_time_of_first_record_entry
    (p : TraceViewer.page) (fields : list (string * value))
    (first : value) (rest : list value) :
  TraceViewer.currentTrace p = VObj fields ->
  lookup_field "spans" fields = VArr (first :: rest) ->
  Forall (fun s => nullish s = false) (first :: rest) ->
  truthy first = true ->
  renderable_metadata (VObj fields) = true ->
  exists g p',
    TraceViewer.renderTraceMetadata p = (Ok (), p')
    /\ TraceViewer.elements p' !! "trace-metadata" = Some (MetadataGrid g)
    /\ mg_start_time g = prop "start_time" first.
Proof.
  intros Hct Hspans Hobj Hfirst Hmeta.
  destruct (renderTraceMetadata_ok p fields _ Hct Hspans Hobj Hmeta) as (q & _ & ->).
  eexists _, _. split; [reflexivity|]. split; [apply lookup_insert_eq|].
  simpl. unfold or_else. by rewrite Hfirst.
Qed.

Lemma header_start_time_of_first_record_entry_witness :
  exists g p',
    TraceViewer.renderTraceMetadata reversed_page = (Ok (), p')
    /\ TraceViewer.elements p' !! "trace-metadata" = Some (MetadataGrid g)
    /\ mg_start_time g = prop "start_time" late_span.
Proof.
  apply (header_start_time_of_first_record_entry reversed_page
           [("trace_id", VStr "tr_1"); ("name", VStr "demo");
            ("metadata", VObj [("total_duration_ms", VNum 7); ("span_count", VNum 2)]);
            ("spans", VArr [late_span; early_span])]
           late_span [early_span]).
  - reflexivity.
  - reflexivity.
  - repeat constructor.
  - reflexivity.
  - reflexivity.
Defined.

(** X11.  A trace with an empty [spans] array whose header can be drawn
    renders: the header shows the status "Success" and builds its start
    time from [undefined] (an invalid date). *)
Theorem header_of_trace_without_spans
    (p : TraceViewer.page) (fields : list (string * value)) :
  TraceViewer.currentTrace p = VObj fields ->
  lookup_field "spans" fields = VArr [] ->
  renderable_metadata (VObj fields) = true ->
  exists g p',
    TraceViewer.renderTraceMetadata p = (Ok (), p')
    /\ TraceViewer.elements p' !! "trace-metadata" = Some (MetadataGrid g)
    /\ mg_status_class g = "success" /\ mg_status_label g = "Success"
    /\ mg_start_time g = VUndef.
Proof.
  intros Hct Hspans Hmeta.
  destruct (renderTraceMetadata_ok p fields [] Hct Hspans (Forall_nil_2 _) Hmeta)
    as (q & _ & ->).
  eexists _, _. split; [reflexivity|]. split; [apply lookup_insert_eq|]. done.
Qed.

Lemma header_of_trace_without_spans_witness :
  exists g p',
    TraceViewer.renderTraceMetadata (TraceViewer.Page (example_trace []) ∅ false)
    = (Ok (), p')
    /\ TraceViewer.elements p' !! "trace-metadata" = Some (MetadataGrid g)
    /\ mg_status_class g = "success" /\ mg_status_label g = "Success"
    /\ mg_start_time g = VUndef.
Proof.
  apply (header_of_trace_without_spans _
           [("trace_id", VStr "tr_1"); ("name", VStr "demo");
            ("metadata", VObj [("total_duration_ms", VNum 7); ("span_count", VNum 2)]);
            ("spans", VArr [])]); reflexivity.
Defined.

(** X12.  Unlike the status, the span count, the total duration, the
    agent and the framework of the header are read from the stored
    [metadata]: two traces with the same [metadata], each with a header
    that can be drawn, show the same values whatever their spans are. *)
Theorem header_counts_come_from_metadata
    (p1 p2 : TraceViewer.page) (fields1 fields2 : list (string * value))
    (items1 items2 : list value) :
  TraceViewer.currentTrace p1 = VObj fields1 ->
  TraceViewer.currentTrace p2 = VObj fields2 ->
  lookup_field "spans" fields1 = VArr items1 ->
  lookup_field "spans" fields2 = VArr items2 ->
  Forall (fun s => nullish s = false) items1 ->
  Forall (fun s => nullish s = false) items2 ->
  lookup_field "metadata" fields1 = lookup_field "metadata" fields2 ->
  renderable_metadata (VObj fields1) = true ->
  renderable_metadata (VObj fields2) = true ->
  exists g1 g2 p1' p2',
    TraceViewer.renderTraceMetadata p1 = (Ok (), p1')
    /\ TraceViewer.renderTraceMetadata p2 = (Ok (), p2')
    /\ TraceViewer.elements p1' !! "trace-metadata" = Some (MetadataGrid g1)
    /\ TraceViewer.elements p2' !! "trace-metadata" = Some (MetadataGrid g2)
    /\ mg_span_count g1 = mg_span_count g2
    /\ mg_total_duration g1 = mg_total_duration g2
    /\ mg_agent g1 = mg_agent g2
    /\ mg_framework g1 = mg_framework g2.
Proof.
  intros Hct1 Hct2 Hs1 Hs2 Ho1 Ho2 Hmd Hmeta1 Hmeta2.
  destruct (renderTraceMetadata_ok p1 fields1 _ Hct1 Hs1 Ho1 Hmeta1) as (q1 & Hq1 & ->).
  destruct (renderTraceMetadata_ok p2 fields2 _ Hct2 Hs2 Ho2 Hmeta2) as (q2 & Hq2 & ->).
  rewrite <- Hmd in Hq2. rewrite Hq1 in Hq2. injection Hq2 as <-.
  eexists _, _, _, _. split; [reflexivity|]. split; [reflexivity|].
  split; [apply lookup_insert_eq|]. split; [apply lookup_insert_eq|].
  simpl. by rewrite Hmd.
Qed.

Lemma header_counts_come_from_metadata_witness :
  exists g1 g2 p1' p2',
    TraceViewer.renderTraceMetadata reversed_page = (Ok (), p1')
    /\ TraceViewer.renderTraceMetadata (TraceViewer.Page (example_trace []) ∅ false)
       = (Ok (), p2')
    /\ TraceViewer.elements p1' !! "trace-metadata" = Some (MetadataGrid g1)
    /\ TraceViewer.elements p2' !! "trace-metadata" = Some (MetadataGrid g2)
    /\ mg_span_count g1 = mg_span_count g2
    /\ mg_total_duration g1 = mg_total_duration g2
    /\ mg_agent g1 = mg_agent g2
    /\ mg_framework g1 = mg_framework g2.
Proof.
  apply (header_counts_come_from_metadata reversed_page
           (TraceViewer.Page (example_trace []) ∅ false)
           [("trace_id", VStr "tr_1"); ("name", VStr "demo");
            ("metadata", VObj [("total_duration_ms", VNum 7); ("span_count", VNum 2)]);
            ("spans", VArr [late_span; early_span])]
           [("trace_id", VStr "tr_1"); ("name", VStr "demo");
            ("metadata", VObj [("total_duration_ms", VNum 7); ("span_count", VNum 2)]);
            ("spans", VArr [])]
           [late_span; early_span] []).
  - reflexivity.
  - reflexivity.
  - reflexivity.
  - reflexivity.
  - repeat constructor.
  - constructor.
  - reflexivity.
  - reflexivity.
  - reflexivity.
Defined.

(** ** The execution graph is flat *)

(** X13.  The graph is flat: a node is drawn the same whatever the
    span's [parent_span_id] is, and no node is ever indented. *)
Theorem graph_node_ignores_parent
    (h : host) (fields : list (string * value)) (parent : value) :
  TraceViewer.renderSpanNode h (VObj (set_field "parent_span_id" parent fields))
  = TraceViewer.renderSpanNode h (VObj fields)
  /\ forall n, TraceViewer.renderSpanNode h (VObj fields) = Ok n ->
               sn_indent n = EmptyString.
Proof.
  unfold TraceViewer.renderSpanNode. simpl. rewrite !lookup_set_field. simpl.
  split; [done|]. intros n.
  destruct (ToPrimitive (lookup_field "span_id" fields)); simpl; [|done].
  destruct (ToPrimitive (lookup_field "name" fields)); simpl; [|done].
  destruct (ToPrimitive (lookup_field "span_type" fields)); simpl; [|done].
  destruct (toFixed _); simpl; [|done].
  destruct (get (lookup_field "llm_calls" fields) "length") as [len|]; simpl; [|done].
  destruct (gt_zero h len); simpl; [|done].
  by intros [= <-].
Qed.

(** ** The span detail modal, continued *)

Lemma array_find_first (f : value -> outcome bool) pre s post :
  Forall (fun x => f x = Ok false) pre -> f s = Ok true ->
  array_find f (pre ++ s :: post) = Ok (Some s).
Proof.
  intros Hpre Hs. induction Hpre as [|x pre Hx _ IH]; simpl.
  - by rewrite Hs.
  - by rewrite Hx.
Qed.

Lemma renderLlmCall_ok idx c :
  renderable_call c = true ->
  exists v, TraceViewer.renderLlmCall idx c = Ok v /\ lc_number v = (idx + 1)%nat.
Proof.
  unfold renderable_call. intros H. split_andb.
  match goal with H : negb (nullish _) = true |- _ =>
    apply negb_true_iff in H; rename H into Hc end.
  match goal with H : is_number (prop "latency_ms" _) = true |- _ =>
    apply toFixed_number in H as (q & _ & Hq) end.
  match goal with H : _ || _ = true |- _ => rename H into Hcost end.
  unfold TraceViewer.renderLlmCall.
  rewrite !(get_not_nullish _ _ Hc). cbn [mbind outcome_bind]. convert.
  rewrite Hq. cbn [mbind outcome_bind].
  destruct (truthy (prop "cost" c)); simpl in Hcost.
  - apply toFixed_number in Hcost as (q' & _ & ->). cbn [mbind outcome_bind]. convert.
    by eexists.
  - cbn [mbind outcome_bind]. convert. by eexists.
Qed.

Lemma renderLlmCalls_ok calls :
  Forall (fun c => renderable_call c = true) calls ->
  forall idx, exists views,
    TraceViewer.renderLlmCalls idx calls = Ok views
    /\ lc_number <$> views = seq (idx + 1) (length calls).
Proof.
  induction 1 as [|c calls Hc _ IH]; intros idx; simpl.
  - by exists [].
  - destruct (renderLlmCall_ok idx c Hc) as (v & -> & Hv). simpl.
    destruct (IH (S idx)) as (vs & -> & Hvs). simpl.
    exists (v :: vs). split; [done|]. rewrite fmap_cons, Hv, Hvs. done.
Qed.

Lemma renderLlmCalls_throws calls :
  Exists (fun c => nullish c = false /\ is_number (prop "latency_ms" c) = false) calls ->
  forall idx, exists e, TraceViewer.renderLlmCalls idx calls = Throw e.
Proof.
  induction 1 as [c calls [Hc Hlat]|c calls _ IH]; intros idx; simpl.
  - unfold TraceViewer.renderLlmCall. rewrite !(get_not_nullish _ _ Hc).
    cbn [mbind outcome_bind].
    destruct (ToPrimitive (prop "model" c)); cbn [mbind outcome_bind]; [|eauto].
    destruct (prop "latency_ms" c); try done; simpl; eauto.
  - destruct (TraceViewer.renderLlmCall idx c); simpl; [|eauto].
    destruct (IH (S idx)) as [e ->]. simpl. eauto.
Qed.

Lemma find_span_by_id spanId pre sfields post :
  Forall (fun s => nullish s = false
                   /\ strict_eq (prop "span_id" s) (VStr spanId) = false) pre ->
  lookup_field "span_id" sfields = VStr spanId ->
  array_find (fun s => id ← get s "span_id"; Ok (strict_eq id (VStr spanId)))
    (pre ++ VObj sfields :: post)
  = Ok (Some (VObj sfields)).
Proof.
  intros Hpre Hid. apply array_find_first.
  - eapply Forall_impl; [exact Hpre|]. intros s [Hs Hne]. simpl.
    rewrite (get_not_nullish _ _ Hs). simpl. by rewrite Hne.
  - simpl. rewrite Hid. simpl. by rewrite String.eqb_refl.
Qed.

(** X14.  [showSpanDetail] opens the modal on the first span of
    [currentTrace.spans], as the array stands at the call, whose
    [span_id] is the given string.  When that span and its LLM calls
    can be drawn, the detail shows the span's fields with its raw
    status, the LLM calls are numbered from 1 in order (the section is
    absent when there are none), the error section appears exactly when
    [span.error] is truthy, and the current trace and every other
    element stay as they were. *)
Theorem span_detail_shows_first_match
    (h : host) (spanId : string) (p : TraceViewer.page)
    (fields sfields : list (string * value)) (pre post calls : list value) :
  TraceViewer.currentTrace p = VObj fields ->
  lookup_field "spans" fields = VArr (pre ++ VObj sfields :: post) ->
  Forall (fun s => nullish s = false
                   /\ strict_eq (prop "span_id" s) (VStr spanId) = false) pre ->
  lookup_field "span_id" sfields = VStr spanId ->
  lookup_field "llm_calls" sfields = VArr calls ->
  Forall (fun c => renderable_call c = true) calls ->
  renderable_detail (VObj sfields) = true ->
  exists d,
    TraceViewer.showSpanDetail h spanId p
    = (Ok (),
       TraceViewer.Page (TraceViewer.currentTrace p)
         (<["span-detail-content" := SpanDetail d]> (TraceViewer.elements p)) true)
    /\ sd_span_id d = VStr spanId
    /\ sd_name d = lookup_field "name" sfields
    /\ sd_status d = lookup_field "status" sfields
    /\ sd_inputs d = lookup_field "inputs" sfields
    /\ sd_outputs d = lookup_field "outputs" sfields
    /\ match sd_llm_calls d with
       | None => calls = []
       | Some (n, views) =>
           calls <> [] /\ n = num_of_nat (length calls)
           /\ lc_number <$> views = seq 1 (length calls)
       end
    /\ sd_error d
       = if truthy (lookup_field "error" sfields)
         then Some (lookup_field "error_type" sfields, lookup_field "error" sfields)
         else None.
Proof.
  intros Hct Hspans Hpre Hid Hcalls Hrender Hdetail.
  unfold renderable_detail in Hdetail. rewrite !prop_obj in Hdetail. split_andb.
  match goal with H : is_number _ = true |- _ =>
    apply toFixed_number in H as (q & _ & Hq) end.
  match goal with H : _ || _ = true |- _ => rename H into Herror end.
  destruct (renderLlmCalls_ok calls Hrender 0%nat) as (views & Hviews & Hnum).
  unfold TraceViewer.showSpanDetail, TraceViewer.read_currentTrace, Js.bind.
  rewrite Hct. simpl. rewrite Hspans. simpl.
  rewrite (find_span_by_id spanId pre sfields post Hpre Hid). simpl.
  rewrite Hcalls, Hid. cbn [get String.eqb Ascii.eqb Bool.eqb mbind outcome_bind].
  rewrite gt_zero_length. cbn [mbind outcome_bind].
  unfold TraceViewer.set_content, TraceViewer.activate_modal, eval.
  destruct (truthy (lookup_field "error" sfields)); simpl in Herror.
  - split_andb.
    destruct calls as [|c calls]; simpl in *.
    + convert. rewrite Hq. simpl. convert.
      eexists. split; [by rewrite Hct|]. done.
    + rewrite Hviews. simpl. convert. rewrite Hq. simpl. convert.
      eexists. split; [by rewrite Hct|]. simpl.
      repeat split; done.
  - destruct calls as [|c calls]; simpl in *.
    + convert. rewrite Hq. simpl.
      eexists. split; [by rewrite Hct|]. done.
    + rewrite Hviews. simpl. convert. rewrite Hq. simpl.
      eexists. split; [by rewrite Hct|]. simpl.
      repeat split; done.
Qed.

Lemma span_detail_shows_first_match_witness :
  exists d,
    TraceViewer.showSpanDetail numeric_host "b"
      (TraceViewer.Page
         (VObj [("trace_id", VStr "tr_1");
                ("spans",
                 VArr [example_span "a" 9 "success";
                       VObj [("span_id", VStr "b"); ("name", VStr "ask");
                             ("status", VStr "success");
                             ("llm_calls", VArr [example_call (VNum 120);
                                                 example_call (VNum 80)])];
                       VObj [("span_id", VStr "b"); ("name", VStr "shadowed")]])])
         ∅ false)
    = (Ok (),
       TraceViewer.Page
         (VObj [("trace_id", VStr "tr_1");
                ("spans",
                 VArr [example_span "a" 9 "success";
                       VObj [("span_id", VStr "b"); ("name", VStr "ask");
                             ("status", VStr "success");
                             ("llm_calls", VArr [example_call (VNum 120);
                                                 example_call (VNum 80)])];
                       VObj [("span_id", VStr "b"); ("name", VStr "shadowed")]])])
         (<["span-detail-content" := SpanDetail d]> ∅) true)
    /\ sd_span_id d = VStr "b"
    /\ sd_name d = VStr "ask"
    /\ sd_status d = VStr "success"
    /\ sd_inputs d = VUndef
    /\ sd_outputs d = VUndef
    /\ match sd_llm_calls d with
       | None => [example_call (VNum 120); example_call (VNum 80)] = []
       | Some (n, views) =>
           [example_call (VNum 120); example_call (VNum 80)] <> []
           /\ n = num_of_nat 2
           /\ lc_number <$> views = [1; 2]%nat
       end
    /\ sd_error d = None.
Proof.
  apply (span_detail_shows_first_match numeric_host "b"
           (TraceViewer.Page
              (VObj [("trace_id", VStr "tr_1");
                     ("spans",
                      VArr [example_span "a" 9 "success";
                            VObj [("span_id", VStr "b"); ("name", VStr "ask");
                                  ("status", VStr "success");
                                  ("llm_calls", VArr [example_call (VNum 120);
                                                      example_call (VNum 80)])];
                            VObj [("span_id", VStr "b"); ("name", VStr "shadowed")]])])
              ∅ false)
           [("trace_id", VStr "tr_1");
            ("spans",
             VArr [example_span "a" 9 "success";
                   VObj [("span_id", VStr "b"); ("name", VStr "ask");
                         ("status", VStr "success");
                         ("llm_calls", VArr [example_call (VNum 120);
                                             example_call (VNum 80)])];
                   VObj [("span_id", VStr "b"); ("name", VStr "shadowed")]])]
           [("span_id", VStr "b"); ("name", VStr "ask"); ("status", VStr "success");
            ("llm_calls", VArr [example_call (VNum 120); example_call (VNum 80)])]
           [example_span "a" 9 "success"]
           [VObj [("span_id", VStr "b"); ("name", VStr "shadowed")]]
           [example_call (VNum 120); example_call (VNum 80)]).
  - reflexivity.
  - reflexivity.
  - repeat constructor.
  - reflexivity.
  - reflexivity.
  - repeat constructor.
  - reflexivity.
Defined.

(** X15.  [call.latency_ms.toFixed] is unguarded (unlike [call.cost]):
    when a call of the matching span has a [latency_ms] that is not a
    number, [showSpanDetail] throws and leaves the page as it was, so
    the modal does not open. *)
Theorem llm_call_without_latency_blocks_detail
    (h : host) (spanId : string) (p : TraceViewer.page)
    (fields sfields : list (string * value)) (pre post calls : list value) :
  TraceViewer.currentTrace p = VObj fields ->
  lookup_field "spans" fields = VArr (pre ++ VObj sfields :: post) ->
  Forall (fun s => nullish s = false
                   /\ strict_eq (prop "span_id" s) (VStr spanId) = false) pre ->
  lookup_field "span_id" sfields = VStr spanId ->
  lookup_field "llm_calls" sfields = VArr calls ->
  Exists (fun c => nullish c = false /\ is_number (prop "latency_ms" c) = false) calls ->
  exists e, TraceViewer.showSpanDetail h spanId p = (Throw e, p).
Proof.
  intros Hct Hspans Hpre Hid Hcalls Hbad.
  destruct (renderLlmCalls_throws calls Hbad 0%nat) as (e & Hviews).
  exists e.
  unfold TraceViewer.showSpanDetail, TraceViewer.read_currentTrace, Js.bind.
  rewrite Hct. simpl. rewrite Hspans. simpl.
  rewrite (find_span_by_id spanId pre sfields post Hpre Hid). simpl.
  rewrite Hcalls. cbn [get String.eqb Ascii.eqb Bool.eqb mbind outcome_bind].
  rewrite gt_zero_length. cbn [mbind outcome_bind].
  destruct calls as [|c calls]; [by apply Exists_nil in Hbad|].
  simpl in *. rewrite Hviews. simpl. reflexivity.
Qed.

Lemma llm_call_without_latency_blocks_detail_witness :
  exists e,
    TraceViewer.showSpanDetail numeric_host "b"
      (TraceViewer.Page
         (VObj [("spans",
                 VArr [VObj [("span_id", VStr "b"); ("name", VStr "ask");
                             ("llm_calls", VArr [example_call (VNum 120);
                                                 example_call VNull])]])])
         ∅ false)
    = (Throw e,
       TraceViewer.Page
         (VObj [("spans",
                 VArr [VObj [("span_id", VStr "b"); ("name", VStr "ask");
                             ("llm_calls", VArr [example_call (VNum 120);
                                                 example_call VNull])]])])
         ∅ false).
Proof.
  apply (llm_call_without_latency_blocks_detail numeric_host "b"
           (TraceViewer.Page
              (VObj [("spans",
                      VArr [VObj [("span_id", VStr "b"); ("name", VStr "ask");
                                  ("llm_calls", VArr [example_call (VNum 120);
                                                      example_call VNull])]])])
              ∅ false)
           [("spans",
             VArr [VObj [("span_id", VStr "b"); ("name", VStr "ask");
                         ("llm_calls", VArr [example_call (VNum 120);
                                             example_call VNull])]])]
           [("span_id", VStr "b"); ("name", VStr "ask");
            ("llm_calls", VArr [example_call (VNum 120); example_call VNull])]
           [] [] [example_call (VNum 120); example_call VNull]).
  - reflexivity.
  - reflexivity.
  - constructor.
  - reflexivity.
  - reflexivity.
  - apply Exists_cons_tl, Exists_cons_hd. split; reflexivity.
Defined.

(** X16.  The click handlers pass the identifier as a string and
    [find] compares with [===]: when no span carries a string
    [span_id], no call of [showSpanDetail] opens the modal. *)
Theorem span_with_non_string_id_cannot_be_opened
    (h : host) (spanId : string) (p : TraceViewer.page)
    (fields : list (string * value)) (items : list value) :
  TraceViewer.currentTrace p = VObj fields ->
  lookup_field "spans" fields = VArr items ->
  Forall (fun s => nullish s = false /\ is_string (prop "span_id" s) = false) items ->
  TraceViewer.showSpanDetail h spanId p = (Ok (), p).
Proof.
  intros Hct Hspans Hitems.
  unfold TraceViewer.showSpanDetail, TraceViewer.read_currentTrace, Js.bind.
  rewrite Hct. simpl. rewrite Hspans. simpl.
  rewrite array_find_none; [done|].
  eapply Forall_impl; [exact Hitems|]. intros s [Hs Hid]. simpl in *.
  rewrite (get_not_nullish _ _ Hs). simpl. by destruct (prop "span_id" s).
Qed.

Lemma span_with_non_string_id_cannot_be_opened_witness :
  TraceViewer.showSpanDetail numeric_host "7"
    (TraceViewer.Page
       (VObj [("spans", VArr [VObj [("span_id", VNum 7); ("llm_calls", VArr [])]])])
       ∅ false)
  = (Ok (),
     TraceViewer.Page
       (VObj [("spans", VArr [VObj [("span_id", VNum 7); ("llm_calls", VArr [])]])])
       ∅ false).
Proof.
  apply (span_with_non_string_id_cannot_be_opened numeric_host "7"
           (TraceViewer.Page
              (VObj [("spans", VArr [VObj [("span_id", VNum 7); ("llm_calls", VArr [])]])])
              ∅ false)
           [("spans", VArr [VObj [("span_id", VNum 7); ("llm_calls", VArr [])]])]
           [VObj [("span_id", VNum 7); ("llm_calls", VArr [])]]).
  - reflexivity.
  - reflexivity.
  - repeat constructor.
Defined.

(** X17.  Every call of [showSpanDetail] either leaves the page exactly
    as it was (also when it throws), or returns normally having written
    the detail of a span of the current trace with that identifier and
    activated the modal, with the current trace unchanged. *)
Theorem span_detail_is_all_or_nothing
    (h : host) (spanId : string) (p : TraceViewer.page) :
  exists o p',
    TraceViewer.showSpanDetail h spanId p = (o, p')
    /\ (p' = p
        \/ (o = Ok ()
            /\ TraceViewer.modal_active p' = true
            /\ TraceViewer.currentTrace p' = TraceViewer.currentTrace p
            /\ (exists d, TraceViewer.elements p'
                          = <["span-detail-content" := SpanDetail d]>
                              (TraceViewer.elements p))
            /\ exists items s,
                 prop "spans" (TraceViewer.currentTrace p) = VArr items
                 /\ s ∈ items /\ prop "span_id" s = VStr spanId)).
Proof.
  unfold TraceViewer.showSpanDetail, TraceViewer.read_currentTrace, Js.bind, eval.
  cbn beta iota.
  unfold prop at 1.
  destruct (get (TraceViewer.currentTrace p) "spans") as [spans|e];
    [|by eexists _, _; split; [reflexivity|left]].
  destruct (as_array "find" spans) as [items|e] eqn:Hitems;
    [|by eexists _, _; split; [reflexivity|left]].
  assert (spans = VArr items) as -> by (by destruct spans; simplify_eq/=).
  destruct (array_find _ items) as [found|e] eqn:Hfind;
    [|by eexists _, _; split; [reflexivity|left]].
  destruct found as [s|]; simpl;
    [|by eexists _, _; split; [reflexivity|left]].
  apply array_find_some in Hfind as [Hin Hs].
  destruct (truthy s); simpl; [|by eexists _, _; split; [reflexivity|left]].
  destruct (get s "llm_calls" ≫= _) as [d|e]; simpl;
    [|by eexists _, _; split; [reflexivity|left]].
  eexists _, _. split; [reflexivity|]. right. simpl.
  split; [done|]. split; [done|]. split; [done|]. split; [by eexists|].
  exists items, s. split; [done|]. split; [done|].
  unfold prop. destruct (get s "span_id"); simpl in Hs; [|done].
  apply strict_eq_string. congruence.
Qed.

(** ** The two views of one span *)

(** X18.  Every span the graph can draw whose [start_time] converts to a
    primitive the list can draw too, with the same class, identifier,
    name, type and duration. *)
Theorem list_row_agrees_with_graph_node (h : host) (s : value) (n : span_node) :
  TraceViewer.renderSpanNode h s = Ok n ->
  printable (prop "start_time" s) = true ->
  exists r,
    TraceViewer.renderSpanRow s = Ok r
    /\ sr_class r = sn_class n
    /\ sr_onclick r = sn_onclick n
    /\ sr_name r = sn_name n
    /\ sr_type r = sn_type n
    /\ sr_duration r = sn_duration n.
Proof.
  destruct (nullish s) eqn:Hs; [by destruct s|].
  unfold TraceViewer.renderSpanNode, TraceViewer.renderSpanRow.
  rewrite !(get_not_nullish _ _ Hs). cbn [mbind outcome_bind].
  destruct (ToPrimitive (prop "span_id" s)); cbn [mbind outcome_bind]; [|done].
  destruct (ToPrimitive (prop "name" s)); cbn [mbind outcome_bind]; [|done].
  destruct (ToPrimitive (prop "span_type" s)); cbn [mbind outcome_bind]; [|done].
  destruct (toFixed _) as [q|e]; cbn [mbind outcome_bind]; [|done].
  destruct (get (prop "llm_calls" s) "length") as [len|]; cbn [mbind outcome_bind]; [|done].
  destruct (gt_zero h len); cbn [mbind outcome_bind]; [|done].
  intros [= <-] Hstart. rewrite (ToPrimitive_printable _ Hstart). cbn [mbind outcome_bind].
  eexists. split; [reflexivity|]. done.
Qed.

Lemma list_row_agrees_with_graph_node_witness :
  exists r,
    TraceViewer.renderSpanRow (example_span "a" 9 "error") = Ok r
    /\ sr_class r = "error"
    /\ sr_onclick r = VStr "a"
    /\ sr_name r = VStr "step"
    /\ sr_type r = VStr "tool_call"
    /\ sr_duration r = 3%Q.
Proof.
  apply (list_row_agrees_with_graph_node numeric_host (example_span "a" 9 "error")
           (SpanNode "error" EmptyString (VStr "a") RedCircle (VStr "step")
              (VStr "tool_call") 3%Q None)); reflexivity.
Defined.

(** Without that condition the two views part: for a single span whose
    [start_time] is an object without text the comparator is never
    called and the graph draws the node, while the list throws on the
    date. *)
Lemma object_start_time_breaks_only_the_list (h : host) :
  (exists n,
      TraceViewer.renderSpanNode h
        (VObj [("span_id", VStr "a"); ("start_time", unprintable); ("llm_calls", VArr [])])
      = Ok n)
  /\ (exists e,
        TraceViewer.renderSpanRow
          (VObj [("span_id", VStr "a"); ("start_time", unprintable);
                 ("llm_calls", VArr [])])
        = Throw e).
Proof. split; eexists; reflexivity. Qed.
